(** * System-Info-Dashboard: the metrics acquisition layer of [src/main.ts]

    A shallow embedding of the IPC handlers [get-cpu-usage], [get-processes],
    [get-disk-usage] and of [formatUptime], together with the JavaScript
    built-ins they call, followed by the properties of the specification.

    Conventions of the embedding.
    - A JavaScript Number is a value of [number]: NaN, the two infinities, or
      a finite value carried as an exact rational.  Arithmetic follows the
      ECMAScript case analysis on NaN, infinities and zero divisors; on
      finite operands it is exact: binary64 rounding, overflow to an
      infinity and the sign of zero are not represented.
    - A JavaScript string is a [string]; a character stands for one code
      unit below 256.
    - [a[i]] on an array is [nth_error], [undefined] is [None]. *)

From Stdlib Require Import List String Ascii Bool Arith ZArith QArith Qround Lia.
From Stdlib Require Import Sorted DecimalString DecimalPos Lqa Qabs Permutation.
Import ListNotations.

Set Implicit Arguments.

(* ===================================================================== *)
(** ** JavaScript numbers *)
(* ===================================================================== *)

Module JsNum.

Inductive number : Type :=
| NaN : number
| NegInf : number
| Fin : Q -> number
| PosInf : number.

Definition zero : number := Fin 0.
Definition of_Z (z : Z) : number := Fin (inject_Z z).

(** Sign of a finite value, as a comparison with zero. *)
Definition sgn (q : Q) : comparison := Qcompare q 0.

Definition neg (a : number) : number :=
  match a with
  | NaN => NaN
  | NegInf => PosInf
  | Fin q => Fin (- q)
  | PosInf => NegInf
  end.

(** [a + b] *)
Definition add (a b : number) : number :=
  match a, b with
  | NaN, _ | _, NaN => NaN
  | PosInf, NegInf | NegInf, PosInf => NaN
  | PosInf, _ | _, PosInf => PosInf
  | NegInf, _ | _, NegInf => NegInf
  | Fin x, Fin y => Fin (x + y)
  end.

(** [a - b] *)
Definition sub (a b : number) : number := add a (neg b).

(** An infinity with the sign of [c]; NaN when [c] is the sign of zero. *)
Definition inf_of_sign (c : comparison) : number :=
  match c with
  | Gt => PosInf
  | Lt => NegInf
  | Eq => NaN
  end.

(** [a * b] *)
Definition mul (a b : number) : number :=
  match a, b with
  | NaN, _ | _, NaN => NaN
  | Fin x, Fin y => Fin (x * y)
  | PosInf, Fin y | Fin y, PosInf => inf_of_sign (sgn y)
  | NegInf, Fin y | Fin y, NegInf => inf_of_sign (CompOpp (sgn y))
  | PosInf, PosInf | NegInf, NegInf => PosInf
  | PosInf, NegInf | NegInf, PosInf => NegInf
  end.

(** [a / b]: a finite non-zero value over zero is an infinity, zero over
    zero is NaN. *)
Definition div (a b : number) : number :=
  match a, b with
  | NaN, _ | _, NaN => NaN
  | Fin x, Fin y =>
      match sgn y with
      | Eq => inf_of_sign (sgn x)
      | _ => Fin (x / y)
      end
  | Fin _, PosInf | Fin _, NegInf => zero
  | PosInf, Fin y =>
      match sgn y with Lt => NegInf | _ => PosInf end
  | NegInf, Fin y =>
      match sgn y with Lt => PosInf | _ => NegInf end
  | _, _ => NaN
  end.

(** Rounding of a rational towards zero. *)
Definition Qtrunc (q : Q) : Z :=
  match sgn q with
  | Lt => Qceiling q
  | _ => Qfloor q
  end.

(** [a % b]: the remainder has the sign of the dividend. *)
Definition rem (a b : number) : number :=
  match a, b with
  | NaN, _ | _, NaN => NaN
  | PosInf, _ | NegInf, _ => NaN
  | Fin x, PosInf | Fin x, NegInf => Fin x
  | Fin x, Fin y =>
      match sgn y with
      | Eq => NaN
      | _ => Fin (x - y * inject_Z (Qtrunc (x / y)))
      end
  end.

(** [Math.floor(a)] *)
Definition floor (a : number) : number :=
  match a with
  | Fin q => Fin (inject_Z (Qfloor q))
  | _ => a
  end.

(** [a > b]; every comparison with NaN is false. *)
Definition gt (a b : number) : bool :=
  match a, b with
  | NaN, _ | _, NaN => false
  | PosInf, PosInf => false
  | PosInf, _ => true
  | _, PosInf => false
  | NegInf, _ => false
  | Fin _, NegInf => true
  | Fin x, Fin y => match Qcompare x y with Gt => true | _ => false end
  end.

(** [a >= b] *)
Definition ge (a b : number) : bool :=
  match a, b with
  | NaN, _ | _, NaN => false
  | PosInf, _ => true
  | _, NegInf => true
  | _, PosInf => false
  | NegInf, _ => false
  | Fin x, Fin y => match Qcompare x y with Lt => false | _ => true end
  end.

(** [a === b] on numbers. *)
Definition eqb (a b : number) : bool :=
  match a, b with
  | PosInf, PosInf | NegInf, NegInf => true
  | Fin x, Fin y => Qeq_bool x y
  | _, _ => false
  end.

(** ToBoolean on a number: NaN and zero are falsy. *)
Definition truthy (a : number) : bool :=
  match a with
  | NaN => false
  | Fin q => negb (Qeq_bool q 0)
  | _ => true
  end.

(** [a || b] on numbers. *)
Definition or (a b : number) : number := if truthy a then a else b.

Definition is_nan (a : number) : bool :=
  match a with NaN => true | _ => false end.

(** ToString of a Number that is NaN, infinite or integral, which is what
    [Math.floor] returns and what this program renders: [NaN],
    [Infinity], or the decimal numeral (the form ECMAScript prescribes for
    integers below 10^21).  Of a finite value with a fraction, which the
    program never renders, only the integer part is written. *)
Definition string_of_Z (z : Z) : string := NilZero.string_of_int (Z.to_int z).

Definition toString (a : number) : string :=
  match a with
  | NaN => "NaN"
  | PosInf => "Infinity"
  | NegInf => "-Infinity"
  | Fin q => string_of_Z (Qfloor q)
  end.

End JsNum.

Import JsNum.

(* ===================================================================== *)
(** ** JavaScript strings *)
(* ===================================================================== *)

Module JsString.

Open Scope string_scope.

Definition dquote : ascii := "034"%char.
Definition newline : string := String "010"%char EmptyString.

(** WhiteSpace and LineTerminator code units below 256: TAB, LF, VT, FF,
    CR, SP and NBSP.  They are what [trim] strips and what the regular
    expression class [\s] matches. *)
Definition is_space (c : ascii) : bool :=
  let n := nat_of_ascii c in
  ((9 <=? n)%nat && (n <=? 13)%nat) || (n =? 32)%nat || (n =? 160)%nat.

Definition is_empty (s : string) : bool :=
  match s with EmptyString => true | _ => false end.

(** ToBoolean on a string: only the empty string is falsy. *)
Definition truthy (s : string) : bool := negb (is_empty s).

Fixpoint trimStart (s : string) : string :=
  match s with
  | String c r => if is_space c then trimStart r else s
  | EmptyString => EmptyString
  end.

Fixpoint trimEnd (s : string) : string :=
  match s with
  | EmptyString => EmptyString
  | String c r =>
      let r' := trimEnd r in
      if is_empty r' && is_space c then EmptyString else String c r'
  end.

(** [s.trim()] *)
Definition trim (s : string) : string := trimEnd (trimStart s).

(** [s.includes(t)] *)
Fixpoint includes (s t : string) : bool :=
  prefix t s ||
  match s with
  | EmptyString => false
  | String _ r => includes r t
  end.

(** [s.split(sep)] for a non-empty separator string.  [cur] is the piece
    being read, [skip] counts the characters of a separator occurrence
    that are still to be passed over. *)
Fixpoint split_go (sep cur : string) (skip : nat) (s : string) : list string :=
  match s with
  | EmptyString => [cur]
  | String c r =>
      match skip with
      | S k => split_go sep cur k r
      | O =>
          if prefix sep s
          then cur :: split_go sep EmptyString (String.length sep - 1)%nat r
          else split_go sep (cur ++ String c EmptyString) 0 r
      end
  end.

Definition split (s sep : string) : list string := split_go sep EmptyString 0 s.

(** [s.split(/\s+/)]: the pieces between maximal runs of white space;
    [insp] tells that the previous character belonged to such a run. *)
Fixpoint split_ws_go (cur : string) (insp : bool) (s : string) : list string :=
  match s with
  | EmptyString => [cur]
  | String c r =>
      if is_space c
      then (if insp then split_ws_go cur true r
            else cur :: split_ws_go EmptyString true r)
      else split_ws_go (cur ++ String c EmptyString) false r
  end.

Definition split_ws (s : string) : list string := split_ws_go EmptyString false s.

(** [s.replace(/c/g, '')] for a single character [c]. *)
Fixpoint remove_all (c : ascii) (s : string) : string :=
  match s with
  | EmptyString => EmptyString
  | String d r => if Ascii.eqb d c then remove_all c r else String d (remove_all c r)
  end.

(** [s.replace(c, '')] for a single character [c]: the first occurrence
    only. *)
Fixpoint remove_first (c : ascii) (s : string) : string :=
  match s with
  | EmptyString => EmptyString
  | String d r => if Ascii.eqb d c then r else String d (remove_first c r)
  end.

(** [o || d] where [o] is a string or [undefined]. *)
Definition or_str (o : option string) (d : string) : string :=
  match o with
  | Some s => if truthy s then s else d
  | None => d
  end.

(** *** Numerals *)

(** Value of a character as a digit in base [radix] (at most 16). *)
Definition digit_val (radix : Z) (c : ascii) : option Z :=
  let n := Z.of_nat (nat_of_ascii c) in
  let v :=
    if (48 <=? n)%Z && (n <=? 57)%Z then Some (n - 48)%Z
    else if (97 <=? n)%Z && (n <=? 102)%Z then Some (n - 87)%Z
    else if (65 <=? n)%Z && (n <=? 70)%Z then Some (n - 55)%Z
    else None in
  match v with
  | Some d => if (d <? radix)%Z then Some d else None
  | None => None
  end.

(** Reads the longest run of digits at the head of [s]: the number of
    digits read, their value after the accumulator [acc], the rest. *)
Fixpoint read_digits (radix : Z) (acc : Z) (n : nat) (s : string) : nat * Z * string :=
  match s with
  | EmptyString => (n, acc, s)
  | String c r =>
      match digit_val radix c with
      | Some d => read_digits radix (acc * radix + d)%Z (S n) r
      | None => (n, acc, s)
      end
  end.

(** An optional sign at the head of [s]. *)
Definition read_sign (s : string) : bool * string :=
  match s with
  | String "-"%char r => (true, r)
  | String "+"%char r => (false, r)
  | _ => (false, s)
  end.

Definition strip_hex_prefix (s : string) : option string :=
  match s with
  | String "0"%char (String "x"%char r) => Some r
  | String "0"%char (String "X"%char r) => Some r
  | _ => None
  end.

(** [parseInt(s)] with no radix argument: leading white space is skipped,
    a sign is read, the radix is 16 after [0x] or [0X] and 10 otherwise,
    and the longest run of digits is the value; no digit gives NaN.
    [parseInt(undefined)] reads the text [undefined], which is NaN.
    The value is the integer written, exactly: it is the Number the code
    gets when that integer lies between -2^53 and 2^53; a larger one the
    code gets rounded to binary64. *)
Definition parseInt (o : option string) : number :=
  match o with
  | None => NaN
  | Some s =>
      let (negative, s1) := read_sign (trimStart s) in
      let (radix, s2) :=
        match strip_hex_prefix s1 with
        | Some r => (16%Z, r)
        | None => (10%Z, s1)
        end in
      match read_digits radix 0 0 s2 with
      | (O, _, _) => NaN
      | (_, v, _) => of_Z (if negative then - v else v)
      end
  end.

(** The exponent part of a decimal literal: [e] or [E], an optional sign
    and at least one digit; 0 when [s] does not start with one. *)
Definition read_exponent (s : string) : Z :=
  match s with
  | String c r =>
      if Ascii.eqb c "e"%char || Ascii.eqb c "E"%char then
        let (negative, r1) := read_sign r in
        match read_digits 10 0 0 r1 with
        | (O, _, _) => 0%Z
        | (_, v, _) => if negative then (- v)%Z else v
        end
      else 0%Z
  | EmptyString => 0%Z
  end.

(** [parseFloat(s)]: leading white space is skipped and the longest prefix
    that is a decimal literal (sign, [Infinity], digits with an optional
    fraction and exponent) is the value; no such prefix gives NaN. *)
Definition parseFloat (o : option string) : number :=
  match o with
  | None => NaN
  | Some s =>
      let (negative, s1) := read_sign (trimStart s) in
      if prefix "Infinity" s1 then (if negative then NegInf else PosInf)
      else
        let '(ni, vi, s2) := read_digits 10 0 0 s1 in
        let '(nf, vf, s3) :=
          match s2 with
          | String "."%char r => read_digits 10 vi 0 r
          | _ => (O, vi, s2)
          end in
        match ni, nf with
        | O, O => NaN
        | _, _ =>
            let m := if negative then (- vf)%Z else vf in
            Fin (inject_Z m * Qpower 10 (read_exponent s3 - Z.of_nat nf))
        end
  end.

End JsString.

Import JsString.

(* ===================================================================== *)
(** ** JavaScript arrays *)
(* ===================================================================== *)

Module JsArray.

Section Sort.
Variable A : Type.
Variable compareFn : A -> A -> number.

(** [x] is placed after [y] exactly when [compareFn(x, y) > 0]; a NaN
    result counts as zero. *)
Definition after (x y : A) : bool := gt (compareFn x y) zero.

(** Insertion of [x], which preceded every element of [l] in the
    array being sorted: it passes only the elements it must follow. *)
Fixpoint insert (x : A) (l : list A) : list A :=
  match l with
  | [] => [x]
  | y :: l' => if after x y then y :: insert x l' else x :: l
  end.

(** [a.sort(compareFn)].  ECMAScript requires the sort to be stable;
    for a comparator that is consistent every stable sort returns the
    same array, computed here by insertion from the right. *)
Fixpoint sort (l : list A) : list A :=
  match l with
  | [] => []
  | x :: l' => insert x (sort l')
  end.
End Sort.

(** [a.slice(0, n)] *)
Definition slice0 {A} (n : nat) (l : list A) : list A := firstn n l.

End JsArray.

Import JsArray.

(* ===================================================================== *)
(** ** Promises and [try]/[catch] *)
(* ===================================================================== *)

(** A handler body runs against the console (the lines written by
    [console.error]) and either returns a value or throws. *)
Module Async.

Definition error := string.
Definition console := list string.

Inductive outcome (A : Type) : Type :=
| Resolved : A -> outcome A
| Rejected : error -> outcome A.
Arguments Rejected {A} _.

Definition io (A : Type) : Type := console -> outcome A * console.

Definition ret {A} (a : A) : io A := fun c => (Resolved a, c).

Definition bind {A B} (m : io A) (k : A -> io B) : io B :=
  fun c =>
    match m c with
    | (Resolved a, c') => k a c'
    | (Rejected e, c') => (Rejected e, c')
    end.

(** [await p] for a promise that has settled as [p]. *)
Definition await {A} (p : outcome A) : io A := fun c => (p, c).

(** [try { body } catch (error) { handler error }] *)
Definition try_catch {A} (body : io A) (handler : error -> io A) : io A :=
  fun c =>
    match body c with
    | (Resolved a, c') => (Resolved a, c')
    | (Rejected e, c') => handler e c'
    end.

(** [console.error(label, error)] *)
Definition console_error (label : string) (e : error) : io unit :=
  fun c => (Resolved tt, (c ++ [(label ++ " " ++ e)%string])%list).

Declare Scope io_scope.
Delimit Scope io_scope with io.
Notation "x <- m ;; k" := (bind m (fun x => k))
  (at level 61, m at next level, right associativity) : io_scope.

(** What [execAsync] resolves with. *)
Record exec_output : Type := { stdout : string; stderr : string }.

End Async.

Import Async.

(* ===================================================================== *)
(** ** [ipcMain.handle('get-cpu-usage', ...)] *)
(* ===================================================================== *)

Module GetCpuUsage.

(** An element of [os.cpus()]. *)
Record CpuTimes : Type :=
  { user : number; nice : number; sys : number; idle : number; irq : number }.

Record CpuInfo : Type :=
  { model : string; speed : number; times : CpuTimes }.

Record CpuUsage : Type :=
  { usage : number; cores : nat; loadAvg : list number }.

Definition totalIdle (cpus : list CpuInfo) : number :=
  fold_left (fun acc cpu => add acc (idle (times cpu))) cpus zero.

Definition totalTick (cpus : list CpuInfo) : number :=
  fold_left
    (fun acc cpu =>
       add (add (add (add (add acc (user (times cpu))) (nice (times cpu)))
                     (sys (times cpu))) (idle (times cpu))) (irq (times cpu)))
    cpus zero.

(** The handler, given what [os.cpus()] and [os.loadavg()] return. *)
Definition handler (cpus : list CpuInfo) (loadavg : list number) : CpuUsage :=
  {| usage := mul (div (sub (totalTick cpus) (totalIdle cpus)) (totalTick cpus))
                  (of_Z 100);
     cores := List.length cpus;
     loadAvg := loadavg |}.

End GetCpuUsage.

(* ===================================================================== *)
(** ** [ipcMain.handle('get-processes', ...)] *)
(* ===================================================================== *)

Module GetProcesses.

Open Scope string_scope.

(** The branch taken when [process.platform === 'win32']. *)
Module Win32.

Record process : Type :=
  { name : string; pid : number; memory : string; cpu : string }.

Definition command : string := "tasklist /FO CSV /NH".

(** The literal ['"Image Name"'], quotes included. *)
Definition header_marker : string :=
  String dquote ("Image Name" ++ String dquote EmptyString).

(** The literal ['","']. *)
Definition delimiter : string :=
  String dquote (String ","%char (String dquote EmptyString)).

Definition keep_line (line : string) : bool :=
  JsString.truthy (trim line) && negb (includes line header_marker).

Definition parts_of (line : string) : list string :=
  map (remove_all dquote) (split line delimiter).

Definition of_line (line : string) : process :=
  let parts := parts_of line in
  {| name := or_str (nth_error parts 0) EmptyString;
     pid := JsNum.or (parseInt (nth_error parts 1)) zero;
     memory := or_str (nth_error parts 4) "0 K";
     cpu := "N/A" |}.

Definition parseFunction (output : string) : list process :=
  slice0 50
    (filter (fun process => gt (pid process) zero)
       (map of_line (filter keep_line (split output newline)))).

End Win32.

(** The branch taken on every other platform. *)
Module Posix.

Record process : Type :=
  { name : string; pid : number; cpu : number; memory : number;
    vsz : number; rss : number;
    tty : string; stat : string; start : string; time : string }.

Definition command : string := "ps aux --no-headers".

Definition keep_line (line : string) : bool := JsString.truthy (trim line).

Definition parts_of (line : string) : list string := split_ws (trim line).

Definition of_line (line : string) : process :=
  let parts := parts_of line in
  {| name := or_str (nth_error parts 10) (or_str (nth_error parts 0) EmptyString);
     pid := JsNum.or (parseInt (nth_error parts 1)) zero;
     cpu := JsNum.or (parseFloat (nth_error parts 2)) zero;
     memory := JsNum.or (parseFloat (nth_error parts 3)) zero;
     vsz := JsNum.or (parseInt (nth_error parts 4)) zero;
     rss := JsNum.or (parseInt (nth_error parts 5)) zero;
     tty := or_str (nth_error parts 6) EmptyString;
     stat := or_str (nth_error parts 7) EmptyString;
     start := or_str (nth_error parts 8) EmptyString;
     time := or_str (nth_error parts 9) EmptyString |}.

(** The comparator [(a, b) => b.cpu - a.cpu]. *)
Definition compareFn (a b : process) : number := sub (cpu b) (cpu a).

Definition parseFunction (output : string) : list process :=
  slice0 50
    (sort compareFn
       (filter (fun process => gt (pid process) zero)
          (map of_line (filter keep_line (split output newline))))).

End Posix.

(** An element of the array the handler returns: one of the two shapes. *)
Inductive process : Type :=
| OfWin32 : Win32.process -> process
| OfPosix : Posix.process -> process.

Definition pid (p : process) : number :=
  match p with
  | OfWin32 w => Win32.pid w
  | OfPosix x => Posix.pid x
  end.

Definition is_win32 (platform : string) : bool := String.eqb platform "win32".

Definition command (platform : string) : string :=
  if is_win32 platform then Win32.command else Posix.command.

Definition parseFunction (platform : string) (output : string) : list process :=
  if is_win32 platform
  then map OfWin32 (Win32.parseFunction output)
  else map OfPosix (Posix.parseFunction output).

(** The handler, given [process.platform] and the way [execAsync]
    settles for each command line. *)
Definition handler (platform : string)
    (execAsync : string -> outcome exec_output) : io (list process) :=
  try_catch
    (r <- await (execAsync (command platform)) ;;
     ret (parseFunction platform (stdout r)))%io
    (fun error =>
       (_ <- console_error "Error getting processes:" error ;;
        ret [])%io).

End GetProcesses.

(* ===================================================================== *)
(** ** [ipcMain.handle('get-disk-usage', ...)] *)
(* ===================================================================== *)

Module GetDiskUsage.

Open Scope string_scope.

Module Win32.

(** [filesystem] and [mounted] hold [parts[0]] as it is, which is
    [undefined] when the array has no element. *)
Record disk : Type :=
  { filesystem : option string; size : number; used : number;
    available : number; usePercent : number; mounted : option string }.

Definition command : string := "wmic logicaldisk get size,freespace,caption".

Definition keep_line (line : string) : bool :=
  JsString.truthy (trim line) && negb (includes line "Caption").

Definition parts_of (line : string) : list string := split_ws (trim line).

Definition of_line (line : string) : disk :=
  let parts := parts_of line in
  let caption := nth_error parts 0 in
  let freeSpace := JsNum.or (parseInt (nth_error parts 1)) zero in
  let size := JsNum.or (parseInt (nth_error parts 2)) zero in
  let usedSpace := sub size freeSpace in
  {| filesystem := caption;
     size := size;
     used := usedSpace;
     available := freeSpace;
     usePercent :=
       if gt size zero then mul (div usedSpace size) (of_Z 100) else zero;
     mounted := caption |}.

Definition parseFunction (output : string) : list disk :=
  map of_line (filter keep_line (split output newline)).

End Win32.

Module Posix.

Record disk : Type :=
  { filesystem : string; size : string; used : string;
    available : string; usePercent : number; mounted : string }.

Definition command : string := "df -h".

Definition keep_line (line : string) : bool :=
  JsString.truthy (trim line) && negb (includes line "Filesystem").

Definition parts_of (line : string) : list string := split_ws (trim line).

Definition of_line (line : string) : disk :=
  let parts := parts_of line in
  {| filesystem := or_str (nth_error parts 0) EmptyString;
     size := or_str (nth_error parts 1) EmptyString;
     used := or_str (nth_error parts 2) EmptyString;
     available := or_str (nth_error parts 3) EmptyString;
     usePercent :=
       JsNum.or
         (parseInt (option_map (remove_first "%"%char) (nth_error parts 4)))
         zero;
     mounted := or_str (nth_error parts 5) EmptyString |}.

Definition parseFunction (output : string) : list disk :=
  map of_line (filter keep_line (split output newline)).

End Posix.

Inductive disk : Type :=
| OfWin32 : Win32.disk -> disk
| OfPosix : Posix.disk -> disk.

Definition is_win32 (platform : string) : bool := String.eqb platform "win32".

Definition command (platform : string) : string :=
  if is_win32 platform then Win32.command else Posix.command.

Definition parseFunction (platform : string) (output : string) : list disk :=
  if is_win32 platform
  then map OfWin32 (Win32.parseFunction output)
  else map OfPosix (Posix.parseFunction output).

Definition handler (platform : string)
    (execAsync : string -> outcome exec_output) : io (list disk) :=
  try_catch
    (r <- await (execAsync (command platform)) ;;
     ret (parseFunction platform (stdout r)))%io
    (fun error =>
       (_ <- console_error "Error getting disk usage:" error ;;
        ret [])%io).

End GetDiskUsage.

(* ===================================================================== *)
(** ** [formatUptime] *)
(* ===================================================================== *)

Module Uptime.

Open Scope string_scope.

Definition formatUptime (seconds : number) : string :=
  let days := floor (div seconds (of_Z 86400)) in
  let hours := floor (div (rem seconds (of_Z 86400)) (of_Z 3600)) in
  let minutes := floor (div (rem seconds (of_Z 3600)) (of_Z 60)) in
  if gt days zero then
    toString days ++ "d " ++ toString hours ++ "h " ++ toString minutes ++ "m"
  else if gt hours zero then
    toString hours ++ "h " ++ toString minutes ++ "m"
  else
    toString minutes ++ "m".

End Uptime.

(* ===================================================================== *)
(** ** More built-ins: comparison, indexed map, dates *)
(* ===================================================================== *)

Module JsMore.

Open Scope string_scope.

(** [a < b]; every comparison with NaN is false. *)
Definition lt (a b : number) : bool := gt b a.

(** [a.map((x, index) => f x index)], the index counted from [i]. *)
Fixpoint mapi_from {A B} (i : nat) (f : A -> nat -> B) (l : list A) : list B :=
  match l with
  | [] => []
  | x :: l' => f x i :: mapi_from (S i) f l'
  end.

Definition mapi {A B} (f : A -> nat -> B) (l : list A) : list B := mapi_from 0 f l.

(** [o || d] where [o] is an array or [undefined]: an array, even an empty
    one, is truthy. *)
Definition or_array {A} (o : option (list A)) (d : list A) : list A :=
  match o with
  | Some l => l
  | None => d
  end.

(** [o || d] where [o] is a number or [undefined]. *)
Definition or_number (o : option number) (d : number) : number :=
  match o with
  | Some n => JsNum.or n d
  | None => d
  end.

(** *** [new Date(t).toISOString()] *)

(** TimeClip: the time value of [new Date(t)], in milliseconds since the
    epoch; [None] is the invalid date. *)
Definition timeClip (t : number) : option Z :=
  match t with
  | Fin q =>
      if Qle_bool (Qabs q) (inject_Z 8640000000000000)
      then Some (Qtrunc q) else None
  | _ => None
  end.

(** The decimal numeral of a natural number [z], padded with zeros on the
    left to [width] digits. *)
Fixpoint pad_digits (width : nat) (z : Z) : string :=
  match width with
  | O => EmptyString
  | S w =>
      pad_digits w (z / 10)
      ++ String (ascii_of_nat (48 + Z.to_nat (z mod 10))) EmptyString
  end.

(** Year, month and day of the month of the day numbered [days] from
    1970-01-01 in the proleptic Gregorian calendar. *)
Definition civil_of_days (days : Z) : Z * Z * Z :=
  let z := (days + 719468)%Z in
  let era := (z / 146097)%Z in
  let doe := (z - era * 146097)%Z in
  let yoe := ((doe - doe / 1460 + doe / 36524 - doe / 146096) / 365)%Z in
  let doy := (doe - (365 * yoe + yoe / 4 - yoe / 100))%Z in
  let mp := ((5 * doy + 2) / 153)%Z in
  let d := (doy - (153 * mp + 2) / 5 + 1)%Z in
  let m := (if mp <? 10 then mp + 3 else mp - 9)%Z in
  let y := (yoe + era * 400 + (if m <=? 2 then 1 else 0))%Z in
  (y, m, d).

(** Years 0 to 9999 are written with four digits, the others with a sign
    and six digits. *)
Definition iso_year (y : Z) : string :=
  if ((0 <=? y) && (y <=? 9999))%Z then pad_digits 4 y
  else (if (y <? 0)%Z then "-" else "+") ++ pad_digits 6 (Z.abs y).

Definition iso_of_time (t : Z) : string :=
  let day := (t / 86400000)%Z in
  let ms := (t mod 86400000)%Z in
  let '(y, m, d) := civil_of_days day in
  iso_year y ++ "-" ++ pad_digits 2 m ++ "-" ++ pad_digits 2 d ++ "T"
  ++ pad_digits 2 (ms / 3600000) ++ ":"
  ++ pad_digits 2 (ms / 60000 mod 60) ++ ":"
  ++ pad_digits 2 (ms / 1000 mod 60) ++ "."
  ++ pad_digits 3 (ms mod 1000) ++ "Z".

(** [new Date(t).toISOString()]: a RangeError on the invalid date. *)
Definition toISOString (t : number) : outcome string :=
  match timeClip t with
  | Some tv => Resolved (iso_of_time tv)
  | None => Rejected "RangeError: Invalid time value"
  end.

End JsMore.

Import JsMore.

(* ===================================================================== *)
(** ** [ipcMain.handle('get-memory-usage', ...)] *)
(* ===================================================================== *)

Module GetMemoryUsage.

Record MemoryUsage : Type :=
  { total : number; free : number; used : number; usage : number }.

(** The handler, given what [os.totalmem()] and [os.freemem()] return. *)
Definition handler (totalmem freemem : number) : MemoryUsage :=
  let usedmem := sub totalmem freemem in
  {| total := totalmem;
     free := freemem;
     used := usedmem;
     usage := mul (div usedmem totalmem) (of_Z 100) |}.

End GetMemoryUsage.

(* ===================================================================== *)
(** ** [ipcMain.handle('get-system-stats', ...)] *)
(* ===================================================================== *)

Module GetSystemStats.

Import GetCpuUsage.

Record SystemPart : Type :=
  { uptime : number; platform : string; hostname : string }.

Record SystemStats : Type :=
  { cpu : CpuUsage; memory : GetMemoryUsage.MemoryUsage; system : SystemPart }.

(** What the handler reads from the host. *)
Record Host : Type :=
  { os_cpus : list CpuInfo; os_loadavg : list number;
    os_totalmem : number; os_freemem : number;
    os_uptime : number; os_platform : string; os_hostname : string }.

Definition handler (os : Host) : SystemStats :=
  let cpus := os_cpus os in
  let totalIdle := fold_left (fun acc cpu => add acc (idle (times cpu))) cpus zero in
  let totalTick :=
    fold_left
      (fun acc cpu =>
         add (add (add (add (add acc (user (times cpu))) (nice (times cpu)))
                       (sys (times cpu))) (idle (times cpu))) (irq (times cpu)))
      cpus zero in
  let totalmem := os_totalmem os in
  let freemem := os_freemem os in
  let usedmem := sub totalmem freemem in
  {| cpu :=
       {| usage := mul (div (sub totalTick totalIdle) totalTick) (of_Z 100);
          cores := List.length cpus;
          loadAvg := os_loadavg os |};
     memory :=
       {| GetMemoryUsage.total := totalmem;
          GetMemoryUsage.free := freemem;
          GetMemoryUsage.used := usedmem;
          GetMemoryUsage.usage := mul (div usedmem totalmem) (of_Z 100) |};
     system :=
       {| uptime := os_uptime os;
          platform := os_platform os;
          hostname := os_hostname os |} |}.

End GetSystemStats.

(* ===================================================================== *)
(** ** [ipcMain.handle('get-system-uptime', ...)] *)
(* ===================================================================== *)

Module GetSystemUptime.

Open Scope string_scope.

Record UptimeInfo : Type :=
  { uptime : number; bootTime : string; formattedUptime : string }.

(** The handler, given how [os.uptime()] settles (it may throw a
    SystemError) and what [Date.now()] returns.  The boot instant
    [now - uptime * 1000] is computed exactly; it is the code's binary64
    value when both are integers and the product and the difference stay
    within 2^53. *)
Definition handler (os_uptime : outcome number) (now : number) : io UptimeInfo :=
  try_catch
    (uptime <- await os_uptime ;;
     let bootTime := sub now (mul uptime (of_Z 1000)) in
     iso <- await (toISOString bootTime) ;;
     ret {| uptime := uptime;
            bootTime := iso;
            formattedUptime := Uptime.formatUptime uptime |})%io
    (fun error =>
       (_ <- console_error "Error getting system uptime:" error ;;
        ret {| uptime := of_Z 0; bootTime := EmptyString;
               formattedUptime := "Unknown" |})%io).

End GetSystemUptime.

(* ===================================================================== *)
(** ** [ipcMain.handle('get-detailed-system-info', ...)] *)
(* ===================================================================== *)

Module GetDetailedSystemInfo.

Import GetCpuUsage.

Open Scope string_scope.

(** An element of an array of [os.networkInterfaces()]. *)
Record NetworkInterfaceInfo : Type :=
  { address : string; netmask : string; family : string; mac : string;
    internal : bool; cidr : option string; scopeid : option number }.

Record UserInfo : Type :=
  { username : string; uid : number; gid : number;
    shell : option string; user_homedir : string }.

(** What the handler reads from the host.  [os_totalmem k] and
    [os_freemem k] are what the call number [k] of [os.totalmem()] and of
    [os.freemem()] returns; [os_userInfo] is how [os.userInfo()] settles
    (it throws a SystemError for a user without name or home directory);
    the interfaces are listed in the order of [Object.entries]. *)
Record Host : Type :=
  { os_platform : string; os_arch : string; os_type : string;
    os_release : string; os_version : string; os_machine : string;
    os_hostname : string; os_homedir : string; os_tmpdir : string;
    os_cpus : list CpuInfo;
    os_totalmem : nat -> number; os_freemem : nat -> number;
    os_uptime : number; os_loadavg : list number;
    os_userInfo : outcome UserInfo;
    os_networkInterfaces :
      option (list (string * option (list NetworkInterfaceInfo))) }.

Record CpuDetail : Type :=
  { id : nat; d_model : string; d_speed : number; d_times : CpuTimes }.

Record InterfaceDetail : Type :=
  { i_address : string; i_netmask : string; i_family : string;
    i_mac : string; i_internal : bool; i_cidr : option string }.

Record NetworkDetail : Type :=
  { name : string; interfaces : list InterfaceDetail }.

Record PlatformPart : Type :=
  { platform : string; arch : string; type : string; release : string;
    version : string; machine : string; hostname : string;
    homedir : string; tmpdir : string }.

Record CpuPart : Type :=
  { cores : nat; model : string; speed : number; details : list CpuDetail }.

Record MemoryPart : Type := { total : number; free : number; used : number }.

Record SystemPart : Type :=
  { uptime : number; loadavg : list number; userInfo : UserInfo }.

Record DetailedSystemInfo : Type :=
  { p_platform : PlatformPart; p_cpu : CpuPart; p_memory : MemoryPart;
    p_system : SystemPart; p_network : list NetworkDetail }.

Definition cpuDetails (cpus : list CpuInfo) : list CpuDetail :=
  mapi (fun cpu index =>
          {| id := index;
             d_model := GetCpuUsage.model cpu;
             d_speed := GetCpuUsage.speed cpu;
             d_times :=
               {| user := user (times cpu); nice := nice (times cpu);
                  sys := sys (times cpu); idle := idle (times cpu);
                  irq := irq (times cpu) |} |})
       cpus.

Definition interfaceDetail (iface : NetworkInterfaceInfo) : InterfaceDetail :=
  {| i_address := address iface; i_netmask := netmask iface;
     i_family := family iface; i_mac := mac iface;
     i_internal := internal iface; i_cidr := cidr iface |}.

Definition networkDetails
    (networkInterfaces : option (list (string * option (list NetworkInterfaceInfo))))
    : list NetworkDetail :=
  map (fun entry : string * option (list NetworkInterfaceInfo) =>
         let (name, interfaces) := entry in
         {| name := name;
            interfaces := or_array (option_map (map interfaceDetail) interfaces) [] |})
      (or_array networkInterfaces []).

Definition handler (os : Host) : io DetailedSystemInfo :=
  (let cpus := os_cpus os in
   let networkInterfaces := os_networkInterfaces os in
   let cpuDetails := cpuDetails cpus in
   let networkDetails := networkDetails networkInterfaces in
   info <- await (os_userInfo os) ;;
   ret {| p_platform :=
            {| platform := os_platform os; arch := os_arch os;
               type := os_type os; release := os_release os;
               version := os_version os; machine := os_machine os;
               hostname := os_hostname os; homedir := os_homedir os;
               tmpdir := os_tmpdir os |};
          p_cpu :=
            {| cores := List.length cpus;
               model := or_str (option_map GetCpuUsage.model (nth_error cpus 0))
                               "Unknown";
               speed := or_number (option_map GetCpuUsage.speed (nth_error cpus 0))
                                  zero;
               details := cpuDetails |};
          p_memory :=
            {| total := os_totalmem os 0;
               free := os_freemem os 0;
               used := sub (os_totalmem os 1) (os_freemem os 1) |};
          p_system :=
            {| uptime := os_uptime os; loadavg := os_loadavg os;
               userInfo := info |};
          p_network := networkDetails |})%io.

End GetDetailedSystemInfo.

(* ===================================================================== *)
(** ** The renderer's status helpers *)
(* ===================================================================== *)

(** A React element as far as these components build it: the component,
    its [variant] and [className] properties and its text. *)
Record Element : Type :=
  { component : string; variant : option string;
    className : option string; children : option string }.

Record StatusInfo : Type := { color : string; bg : string; status : string }.

(** The component [SystemMonitor]. *)
Module Monitor.

Open Scope string_scope.

Definition getCpuStatus (usage : number) : StatusInfo :=
  if lt usage (of_Z 50) then
    {| color := "text-emerald-500"; bg := "bg-emerald-500"; status := "Good" |}
  else if lt usage (of_Z 80) then
    {| color := "text-amber-500"; bg := "bg-amber-500"; status := "Moderate" |}
  else
    {| color := "text-red-500"; bg := "bg-red-500"; status := "High" |}.

Definition getMemoryStatus (usage : number) : StatusInfo :=
  if lt usage (of_Z 60) then
    {| color := "text-blue-500"; bg := "bg-blue-500"; status := "Good" |}
  else if lt usage (of_Z 85) then
    {| color := "text-amber-500"; bg := "bg-amber-500"; status := "Moderate" |}
  else
    {| color := "text-red-500"; bg := "bg-red-500"; status := "High" |}.

Definition getStatusIcon (status : string) : Element :=
  if String.eqb status "Good" then
    {| component := "CheckCircle"; variant := None;
       className := Some "w-4 h-4 text-emerald-500"; children := None |}
  else if String.eqb status "Moderate" then
    {| component := "AlertTriangle"; variant := None;
       className := Some "w-4 h-4 text-amber-500"; children := None |}
  else if String.eqb status "High" then
    {| component := "AlertTriangle"; variant := None;
       className := Some "w-4 h-4 text-red-500"; children := None |}
  else
    {| component := "Info"; variant := None;
       className := Some "w-4 h-4 text-gray-500"; children := None |}.

Definition getStatusBadge (status : string) : Element :=
  if String.eqb status "Good" then
    {| component := "Badge"; variant := Some "secondary";
       className := Some "bg-emerald-100 text-emerald-700 dark:bg-emerald-900/30 dark:text-emerald-400";
       children := Some "Good" |}
  else if String.eqb status "Moderate" then
    {| component := "Badge"; variant := Some "secondary";
       className := Some "bg-amber-100 text-amber-700 dark:bg-amber-900/30 dark:text-amber-400";
       children := Some "Moderate" |}
  else if String.eqb status "High" then
    {| component := "Badge"; variant := Some "secondary";
       className := Some "bg-red-100 text-red-700 dark:bg-red-900/30 dark:text-red-400";
       children := Some "High" |}
  else
    {| component := "Badge"; variant := Some "secondary";
       className := None; children := Some "Unknown" |}.

End Monitor.

(** The component [SystemInfoDashboard]. *)
Module Dashboard.

Open Scope string_scope.

Definition getDiskStatus (usage : number) : StatusInfo :=
  if lt usage (of_Z 70) then
    {| color := "text-emerald-500"; bg := "bg-emerald-500"; status := "Good" |}
  else if lt usage (of_Z 90) then
    {| color := "text-amber-500"; bg := "bg-amber-500"; status := "Warning" |}
  else
    {| color := "text-red-500"; bg := "bg-red-500"; status := "Critical" |}.

Definition getStatusBadge (status : string) : Element :=
  if String.eqb status "Good" then
    {| component := "Badge"; variant := Some "secondary";
       className := Some "bg-emerald-100 text-emerald-700 dark:bg-emerald-900/30 dark:text-emerald-400";
       children := Some "Good" |}
  else if String.eqb status "Warning" then
    {| component := "Badge"; variant := Some "secondary";
       className := Some "bg-amber-100 text-amber-700 dark:bg-amber-900/30 dark:text-amber-400";
       children := Some "Warning" |}
  else if String.eqb status "Critical" then
    {| component := "Badge"; variant := Some "secondary";
       className := Some "bg-red-100 text-red-700 dark:bg-red-900/30 dark:text-red-400";
       children := Some "Critical" |}
  else
    {| component := "Badge"; variant := Some "secondary";
       className := None; children := Some "Unknown" |}.

End Dashboard.

(* ===================================================================== *)
(** ** Vocabulary of the specification *)
(* ===================================================================== *)

(** [subseq l1 l2]: [l1] is [l2] with some elements removed, the others
    keeping their relative order. *)
Inductive subseq {A : Type} : list A -> list A -> Prop :=
| subseq_nil : subseq [] []
| subseq_skip : forall x l1 l2, subseq l1 l2 -> subseq l1 (x :: l2)
| subseq_keep : forall x l1 l2, subseq l1 l2 -> subseq (x :: l1) (x :: l2).

(** [is_fin n q]: the number [n] is finite with value [q]. *)
Definition is_fin (n : number) (q : Q) : Prop :=
  match n with
  | Fin x => x == q
  | _ => False
  end.

(** A tick counter: finite and non-negative. *)
Definition is_counter (n : number) : bool :=
  match n with
  | Fin q => Qle_bool 0 q
  | _ => false
  end.

(** Value of a finite number (0 for the others). *)
Definition value (n : number) : Q :=
  match n with
  | Fin q => q
  | _ => 0
  end.

Module CpuSpec.
Import GetCpuUsage.

Definition counters (cpu : CpuInfo) : bool :=
  is_counter (user (times cpu)) && is_counter (nice (times cpu)) &&
  is_counter (sys (times cpu)) && is_counter (idle (times cpu)) &&
  is_counter (irq (times cpu)).

(** user + nice + system + idle + irq of one core. *)
Definition core_total (cpu : CpuInfo) : Q :=
  value (user (times cpu)) + value (nice (times cpu)) +
  value (sys (times cpu)) + value (idle (times cpu)) + value (irq (times cpu)).

Definition core_idle (cpu : CpuInfo) : Q := value (idle (times cpu)).

Fixpoint Qsum (l : list Q) : Q :=
  match l with
  | [] => 0
  | x :: l' => x + Qsum l'
  end.

(** The sums of the specification over the cores of a snapshot. *)
Definition sumIdle (cpus : list CpuInfo) : Q := Qsum (map core_idle cpus).
Definition sumTicks (cpus : list CpuInfo) : Q := Qsum (map core_total cpus).



(** Every counter of the core is zero. *)
Definition all_zero (cpu : CpuInfo) : bool :=
  JsNum.eqb (user (times cpu)) zero && JsNum.eqb (nice (times cpu)) zero &&
  JsNum.eqb (sys (times cpu)) zero && JsNum.eqb (idle (times cpu)) zero &&
  JsNum.eqb (irq (times cpu)) zero.

(** A core whose five counters are [u], [n], [s], [i] and [q]. *)
Definition core (u n s i q : Z) : CpuInfo :=
  {| model := "cpu"; speed := of_Z 2400;
     times := {| user := of_Z u; nice := of_Z n; sys := of_Z s;
                 idle := of_Z i; irq := of_Z q |} |}.

End CpuSpec.

Module UptimeSpec.

Open Scope string_scope.

(** [x mod d] on rationals: what is left of [x] above the largest
    multiple of [d] below it. *)
Definition Qmod (x d : Q) : Q := x - d * inject_Z (Qfloor (x / d)).

Definition days (seconds : Q) : Z := Qfloor (seconds / 86400).
Definition hours (seconds : Q) : Z := Qfloor (Qmod seconds 86400 / 3600).
Definition minutes (seconds : Q) : Z := Qfloor (Qmod seconds 3600 / 60).

(** The text of the specification, with decimal numerals in the holes. *)
Definition text (seconds : Q) : string :=
  let d := string_of_Z (days seconds) in
  let h := string_of_Z (hours seconds) in
  let m := string_of_Z (minutes seconds) in
  if (days seconds >? 0)%Z then d ++ "d " ++ h ++ "h " ++ m ++ "m"
  else if (hours seconds >? 0)%Z then h ++ "h " ++ m ++ "m"
  else m ++ "m".

End UptimeSpec.

Module Samples.

Open Scope string_scope.

Definition quoted (s : string) : string :=
  String dquote (s ++ String dquote EmptyString).

(** The tasklist line of the specification: five quoted fields. *)
Definition chrome_line : string :=
  quoted "chrome.exe" ++ "," ++ quoted "1234" ++ "," ++ quoted "Console"
  ++ "," ++ quoted "1" ++ "," ++ quoted "50,000 K".

Definition chrome : GetProcesses.Win32.process :=
  {| GetProcesses.Win32.name := "chrome.exe";
     GetProcesses.Win32.pid := of_Z 1234;
     GetProcesses.Win32.memory := "50,000 K";
     GetProcesses.Win32.cpu := "N/A" |}.

(** A tasklist listing whose second line has no number as its pid. *)
Definition tasklist_output : string :=
  chrome_line ++ newline ++
  quoted "ghost.exe" ++ "," ++ quoted "n/a" ++ "," ++ quoted "Services" ++ newline.

Definition ghost_line : string :=
  quoted "ghost.exe" ++ "," ++ quoted "n/a" ++ "," ++ quoted "Services".

(** A ps listing: two processes at 3.5 per cent, one idle one, one line
    without a pid. *)
Definition ps_output : string :=
  "root 1 0.0 0.1 100 200 ? Ss 10:00 0:01 /sbin/init" ++ newline ++
  "bob 22 3.5 1.0 1 2 pts/0 R 11:00 0:00 vim" ++ newline ++
  "eve x 9.9 1.0 1 2 pts/0 R 11:00 0:00 top" ++ newline ++
  "al 7 3.5 1.0 1 2 pts/1 R 11:00 0:00 emacs" ++ newline.

Definition ps_bad_line : string := "eve x 9.9 1.0 1 2 pts/0 R 11:00 0:00 top".


Definition wmic_line : string := "C:       100        400".

(** An [execAsync] that rejects every command. *)
Definition failing_exec (command : string) : outcome exec_output :=
  Rejected "spawn ENOENT".

End Samples.

(* ===================================================================== *)
(** ** Vocabulary of the further properties *)
(* ===================================================================== *)

Module ProcessSpec.
Import GetProcesses.

(** A line that gives a record: kept by the rule, and with a pid above
    zero. *)
Definition win32_valid (line : string) : bool :=
  Win32.keep_line line && gt (Win32.pid (Win32.of_line line)) zero.

Definition posix_valid (line : string) : bool :=
  Posix.keep_line line && gt (Posix.pid (Posix.of_line line)) zero.

(** The records of the valid lines, in the order of the lines. *)
Definition win32_records (output : string) : list Win32.process :=
  map Win32.of_line (filter win32_valid (split output newline)).

Definition posix_records (output : string) : list Posix.process :=
  map Posix.of_line (filter posix_valid (split output newline)).

End ProcessSpec.

Module StringSpec.

Fixpoint forallb_string (p : ascii -> bool) (s : string) : bool :=
  match s with
  | EmptyString => true
  | String c r => p c && forallb_string p r
  end.

(** No double quote in [s]. *)
Definition no_quote (s : string) : bool :=
  forallb_string (fun c => negb (Ascii.eqb c dquote)) s.

(** No white space in [s]. *)
Definition no_space (s : string) : bool :=
  forallb_string (fun c => negb (is_space c)) s.

(** Value of a decimal numeral read from the left after [acc]. *)
Fixpoint uint_value (d : Decimal.uint) (acc : Z) : Z :=
  match d with
  | Decimal.Nil => acc
  | Decimal.D0 d => uint_value d (acc * 10 + 0)
  | Decimal.D1 d => uint_value d (acc * 10 + 1)
  | Decimal.D2 d => uint_value d (acc * 10 + 2)
  | Decimal.D3 d => uint_value d (acc * 10 + 3)
  | Decimal.D4 d => uint_value d (acc * 10 + 4)
  | Decimal.D5 d => uint_value d (acc * 10 + 5)
  | Decimal.D6 d => uint_value d (acc * 10 + 6)
  | Decimal.D7 d => uint_value d (acc * 10 + 7)
  | Decimal.D8 d => uint_value d (acc * 10 + 8)
  | Decimal.D9 d => uint_value d (acc * 10 + 9)
  end%Z.

(** What may follow a numeral for [parseInt] to read exactly it: nothing,
    or a character that is neither a decimal digit nor [x] or [X]. *)
Definition stops_numeral (rest : string) : bool :=
  match rest with
  | EmptyString => true
  | String c _ =>
      match digit_val 10 c with
      | Some _ => false
      | None => negb (Ascii.eqb c "x"%char || Ascii.eqb c "X"%char)
      end
  end.


(** The integers that binary64 holds exactly, one by one: those between
    -2^53 and 2^53.  On their numerals [parseInt], which is exact here,
    returns what the code's [parseInt] returns. *)
Definition safe_integer (z : Z) : Prop :=
  (- 9007199254740992 <= z <= 9007199254740992)%Z.


End StringSpec.

Module DiskSpec.

Open Scope string_scope.


End DiskSpec.

Module Samples2.

Open Scope string_scope.

(** A df listing: the header and two volumes. *)
Definition df_line : string := "/dev/sda1  100G   50G   50G   50% /".

Definition df_output : string :=
  "Filesystem      Size  Used Avail Use% Mounted on" ++ newline ++
  df_line ++ newline ++
  "tmpfs           7.8G     0  7.8G   0% /dev/shm" ++ newline.

Definition ps_line : string := "bob 22 3.5 1.0 1 2 pts/0 R 11:00 0:00 vim".

Definition eth0 : GetDetailedSystemInfo.NetworkInterfaceInfo :=
  {| GetDetailedSystemInfo.address := "10.0.0.2";
     GetDetailedSystemInfo.netmask := "255.255.255.0";
     GetDetailedSystemInfo.family := "IPv4";
     GetDetailedSystemInfo.mac := "02:00:00:00:00:01";
     GetDetailedSystemInfo.internal := false;
     GetDetailedSystemInfo.cidr := Some "10.0.0.2/24";
     GetDetailedSystemInfo.scopeid := None |}.

Definition alice : GetDetailedSystemInfo.UserInfo :=
  {| GetDetailedSystemInfo.username := "alice";
     GetDetailedSystemInfo.uid := of_Z 1000;
     GetDetailedSystemInfo.gid := of_Z 1000;
     GetDetailedSystemInfo.shell := Some "/bin/sh";
     GetDetailedSystemInfo.user_homedir := "/home/alice" |}.

(** A host with two cores, 8 GB of which 2 GB then 3 GB are free, and a
    user lookup that settles as [user]. *)
Definition host (user : outcome GetDetailedSystemInfo.UserInfo)
    : GetDetailedSystemInfo.Host :=
  {| GetDetailedSystemInfo.os_platform := "linux";
     GetDetailedSystemInfo.os_arch := "x64";
     GetDetailedSystemInfo.os_type := "Linux";
     GetDetailedSystemInfo.os_release := "6.1.0";
     GetDetailedSystemInfo.os_version := "#1 SMP";
     GetDetailedSystemInfo.os_machine := "x86_64";
     GetDetailedSystemInfo.os_hostname := "box";
     GetDetailedSystemInfo.os_homedir := "/home/alice";
     GetDetailedSystemInfo.os_tmpdir := "/tmp";
     GetDetailedSystemInfo.os_cpus :=
       [CpuSpec.core 30 0 10 50 10; CpuSpec.core 0 0 0 100 0];
     GetDetailedSystemInfo.os_totalmem := fun _ => of_Z 8000000000;
     GetDetailedSystemInfo.os_freemem :=
       fun k => match k with O => of_Z 2000000000 | _ => of_Z 3000000000 end;
     GetDetailedSystemInfo.os_uptime := of_Z 3661;
     GetDetailedSystemInfo.os_loadavg := [of_Z 1; of_Z 2; of_Z 3];
     GetDetailedSystemInfo.os_userInfo := user;
     GetDetailedSystemInfo.os_networkInterfaces :=
       Some [("lo", None); ("eth0", Some [eth0])] |}.

Definition stats_host (cpus : list GetCpuUsage.CpuInfo) : GetSystemStats.Host :=
  {| GetSystemStats.os_cpus := cpus;
     GetSystemStats.os_loadavg := [];
     GetSystemStats.os_totalmem := of_Z 8000000000;
     GetSystemStats.os_freemem := of_Z 2000000000;
     GetSystemStats.os_uptime := of_Z 3661;
     GetSystemStats.os_platform := "linux";
     GetSystemStats.os_hostname := "box" |}.

End Samples2.

(* ===================================================================== *)
(** ** Facts about numbers *)
(* ===================================================================== *)

Ltac qcases :=
  repeat match goal with
  | |- context [Qcompare ?x ?y] => destruct (Qcompare_spec x y)
  | H : context [Qcompare ?x ?y] |- _ => destruct (Qcompare_spec x y)
  end.

Section NumberFacts.

Lemma or_zero_not_nan (a : number) : is_nan (JsNum.or a zero) = false.
Proof.
unfold JsNum.or. destruct a; reflexivity || (simpl; destruct (negb _); reflexivity).
Qed.

Lemma after_false_ge (a b : number) :
is_nan a = false -> is_nan b = false ->
gt (sub b a) zero = false -> ge a b = true.
Proof.
destruct a, b; simpl; try discriminate; try reflexivity; intros _ _ H.
qcases; try reflexivity; try discriminate; lra.
Qed.

Lemma after_true_ge (a b : number) :
gt (sub b a) zero = true -> ge b a = true.
Proof.
destruct a, b; simpl; try discriminate; try reflexivity; intros H.
qcases; try reflexivity; try discriminate; lra.
Qed.

Lemma ge_trans (a b c : number) :
ge a b = true -> ge b c = true -> ge a c = true.
Proof.
destruct a, b, c; simpl; try discriminate; try reflexivity; intros H1 H2.
qcases; try reflexivity; try discriminate; lra.
Qed.

Lemma after_true_other_class (a b c : number) :
gt (sub b a) zero = true -> JsNum.eqb a c = true -> JsNum.eqb b c = false.
Proof.
destruct a, b, c; simpl; try discriminate; try reflexivity; intros H1 H2.
apply Qeq_bool_iff in H2.
destruct (Qeq_bool q0 q1) eqn:E; [|reflexivity].
apply Qeq_bool_iff in E. qcases; try discriminate; lra.
Qed.

End NumberFacts.

(* ===================================================================== *)
(** ** Facts about subsequences and the stable sort *)
(* ===================================================================== *)

Section SubseqFacts.
Context {A B : Type}.

Lemma subseq_refl (l : list A) : subseq l l.
Proof. induction l; constructor; assumption. Qed.

Lemma subseq_nil_l (l : list A) : subseq [] l.
Proof. induction l; constructor; assumption. Qed.

Lemma subseq_trans (l1 l2 l3 : list A) :
  subseq l1 l2 -> subseq l2 l3 -> subseq l1 l3.
Proof.
  intros H12 H23. revert l1 H12.
  induction H23; intros l0 H12.
  - assumption.
  - constructor. apply IHsubseq. assumption.
  - inversion H12; subst.
    + apply subseq_skip. apply IHsubseq. assumption.
    + apply subseq_keep. apply IHsubseq. assumption.
Qed.

Lemma subseq_filter (p : A -> bool) (l : list A) : subseq (filter p l) l.
Proof.
  induction l as [|x l IH]; simpl.
  - constructor.
  - destruct (p x); [apply subseq_keep | apply subseq_skip]; assumption.
Qed.

Lemma subseq_firstn (n : nat) (l : list A) : subseq (firstn n l) l.
Proof.
  revert l. induction n as [|n IH]; intros [|x l]; simpl.
  - constructor.
  - apply subseq_nil_l.
  - constructor.
  - apply subseq_keep. apply IH.
Qed.

Lemma subseq_map (f : A -> B) (l1 l2 : list A) :
  subseq l1 l2 -> subseq (map f l1) (map f l2).
Proof.
  induction 1; simpl; [apply subseq_nil | apply subseq_skip | apply subseq_keep];
    assumption.
Qed.

Lemma subseq_In (l1 l2 : list A) (x : A) :
  subseq l1 l2 -> In x l1 -> In x l2.
Proof.
  induction 1; simpl; intros Hin.
  - assumption.
  - right. apply IHsubseq. assumption.
  - destruct Hin as [->|Hin]; [left; reflexivity | right; apply IHsubseq; assumption].
Qed.
End SubseqFacts.

Section SortFacts.
Variable A : Type.
Variable compareFn : A -> A -> number.

Lemma In_insert (x y : A) (l : list A) :
  In y (insert compareFn x l) <-> y = x \/ In y l.
Proof.
  induction l as [|z l IH]; simpl.
  - intuition congruence.
  - destruct (after compareFn x z); simpl; [rewrite IH|]; intuition congruence.
Qed.

Lemma In_sort (y : A) (l : list A) : In y (sort compareFn l) <-> In y l.
Proof.
  induction l as [|x l IH]; simpl; [reflexivity|].
  rewrite In_insert, IH. intuition congruence.
Qed.

(** An element passes only elements of other classes, so each class
    keeps its order. *)
Lemma filter_insert (p : A -> bool) (x : A) (l : list A) :
  (forall y, after compareFn x y = true -> p x = true -> p y = false) ->
  filter p (insert compareFn x l) = filter p (x :: l).
Proof.
  intros Hp. induction l as [|y l IH]; [reflexivity|].
  simpl insert. destruct (after compareFn x y) eqn:E; [|reflexivity].
  simpl in *. rewrite IH.
  destruct (p x) eqn:Px; [|reflexivity].
  rewrite (Hp y E eq_refl). reflexivity.
Qed.

Lemma filter_sort (p : A -> bool) (l : list A) :
  (forall x y, after compareFn x y = true -> p x = true -> p y = false) ->
  filter p (sort compareFn l) = filter p l.
Proof.
  intros Hp. induction l as [|x l IH]; [reflexivity|].
  simpl sort. rewrite filter_insert by (apply Hp).
  simpl. rewrite IH. reflexivity.
Qed.

Variable R : A -> A -> Prop.
Variable ok : A -> Prop.
Hypothesis R_trans : forall x y z, R x y -> R y z -> R x z.
Hypothesis after_false : forall x y, ok x -> ok y -> after compareFn x y = false -> R x y.
Hypothesis after_true : forall x y, after compareFn x y = true -> R y x.

Lemma sorted_insert (x : A) (l : list A) :
  ok x -> Forall ok l -> StronglySorted R l ->
  StronglySorted R (insert compareFn x l).
Proof.
  intros Hx Hl Hs. induction Hs as [|y l Hs IH Hy]; simpl.
  - constructor; constructor.
  - inversion Hl as [|? ? Hoky Hokl]; subst.
    destruct (after compareFn x y) eqn:E.
    + constructor; [apply IH; assumption|].
      apply Forall_forall. intros z Hz. apply (proj1 (In_insert x z l)) in Hz.
      destruct Hz as [->|Hz]; [apply after_true; assumption|].
      rewrite Forall_forall in Hy. apply Hy. assumption.
    + assert (Rxy : R x y) by (apply after_false; assumption).
      constructor; [constructor; assumption|].
      constructor; [assumption|].
      apply Forall_forall. intros z Hz.
      rewrite Forall_forall in Hy. eapply R_trans; [exact Rxy|]. apply Hy. assumption.
Qed.

Lemma sorted_sort (l : list A) :
  Forall ok l -> StronglySorted R (sort compareFn l).
Proof.
  induction l as [|x l IH]; intros Hl; simpl.
  - constructor.
  - inversion Hl as [|? ? Hx Hl']; subst.
    apply sorted_insert; [assumption| |apply IH; assumption].
    apply Forall_forall. intros z Hz. apply (proj1 (In_sort z l)) in Hz.
    rewrite Forall_forall in Hl'. apply Hl'. assumption.
Qed.

Lemma sorted_firstn (n : nat) (l : list A) :
  StronglySorted R l -> StronglySorted R (firstn n l).
Proof.
  intros Hs. revert n. induction Hs as [|x l Hs IH Hx]; intros [|n]; simpl;
    try constructor.
  - apply IH.
  - apply Forall_forall. intros z Hz.
    rewrite Forall_forall in Hx. apply Hx.
    eapply subseq_In; [apply subseq_firstn | exact Hz].
Qed.
End SortFacts.


(* ===================================================================== *)
(** ** The process listing *)
(* ===================================================================== *)

Section ProcessFacts.

Import GetProcesses.

Lemma posix_cpu_not_nan (line : string) :
  is_nan (Posix.cpu (Posix.of_line line)) = false.
Proof. apply or_zero_not_nan. Qed.

(** The records the POSIX rule sorts, in the order of their lines. *)
Lemma posix_before_sort (output : string) :
  subseq
    (filter (fun process => gt (Posix.pid process) zero)
       (map Posix.of_line (filter Posix.keep_line (split output newline))))
    (map Posix.of_line (split output newline)).
Proof.
  eapply subseq_trans; [apply subseq_filter|].
  apply subseq_map, subseq_filter.
Qed.

Lemma posix_before_sort_not_nan (output : string) :
  Forall (fun p => is_nan (Posix.cpu p) = false)
    (filter (fun process => gt (Posix.pid process) zero)
       (map Posix.of_line (filter Posix.keep_line (split output newline)))).
Proof.
  apply Forall_forall. intros p Hp.
  apply (subseq_In _ (posix_before_sort output)) in Hp.
  apply in_map_iff in Hp. destruct Hp as [line [<- _]].
  apply posix_cpu_not_nan.
Qed.

Lemma filter_firstn_subseq {A} (p : A -> bool) (n : nat) (l : list A) :
  subseq (filter p (firstn n l)) (filter p l).
Proof.
  revert l. induction n as [|n IH]; intros [|x l]; simpl.
  - constructor.
  - apply subseq_nil_l.
  - constructor.
  - destruct (p x); [apply subseq_keep|]; apply IH.
Qed.

Lemma win32_pid_positive (output : string) :
  Forall (fun p => gt (Win32.pid p) zero = true) (Win32.parseFunction output).
Proof.
  apply Forall_forall. intros p Hp. unfold Win32.parseFunction, slice0 in Hp.
  apply (subseq_In _ (subseq_firstn _ _)) in Hp.
  apply filter_In in Hp. apply Hp.
Qed.

Lemma posix_pid_positive (output : string) :
  Forall (fun p => gt (Posix.pid p) zero = true) (Posix.parseFunction output).
Proof.
  apply Forall_forall. intros p Hp. unfold Posix.parseFunction, slice0 in Hp.
  apply (subseq_In _ (subseq_firstn _ _)) in Hp.
  apply (proj1 (In_sort _ _ _)) in Hp.
  apply filter_In in Hp. apply Hp.
Qed.

Lemma parseFunction_pid_positive (platform output : string) :
  Forall (fun p => gt (pid p) zero = true) (parseFunction platform output).
Proof.
  unfold parseFunction. destruct (is_win32 platform); apply Forall_map.
  - apply (win32_pid_positive output).
  - apply (posix_pid_positive output).
Qed.

Lemma parseFunction_length (platform output : string) :
  (List.length (parseFunction platform output) <= 50)%nat.
Proof.
  unfold parseFunction.
  destruct (is_win32 platform); rewrite length_map; apply firstn_le_length.
Qed.

(** The handler returns what the rule returns for the captured output, or
    the empty array. *)
Lemma handler_cases (platform : string)
    (execAsync : string -> outcome exec_output) (c : console) :
  (exists r, execAsync (command platform) = Resolved r /\
             handler platform execAsync c
             = (Resolved (parseFunction platform (stdout r)), c)) \/
  (exists e, execAsync (command platform) = Rejected e /\
             handler platform execAsync c
             = (Resolved [], (c ++ ["Error getting processes: " ++ e]%string)%list)).
Proof.
  unfold handler, try_catch, bind, await, ret, console_error.
  destruct (execAsync (command platform)) as [r|e]; [left|right]; eexists; split;
    reflexivity.
Qed.

End ProcessFacts.

(** C1, as stated: the line does not parse to a record whose cpu field is
    the text [unavailable]. *)
Lemma win32_chrome_line_not_unavailable :
  ~ exists r : GetProcesses.Win32.process,
      GetProcesses.Win32.parseFunction Samples.chrome_line = [r] /\
      GetProcesses.Win32.name r = "chrome.exe"%string /\
      GetProcesses.Win32.pid r = of_Z 1234 /\
      GetProcesses.Win32.memory r = "50,000 K"%string /\
      GetProcesses.Win32.cpu r = "unavailable"%string.
Proof.
  intros [r [Hr [_ [_ [_ Hcpu]]]]].
  vm_compute in Hr. injection Hr as <-. discriminate Hcpu.
Qed.

(** C1, amended: the Windows rule parses the tasklist line of chrome.exe to
    exactly one record, with name [chrome.exe], pid 1234, memory [50,000 K]
    and the cpu field equal to the text [N/A]. *)
Theorem win32_chrome_line :
  GetProcesses.Win32.parseFunction Samples.chrome_line = [Samples.chrome] /\
  GetProcesses.Win32.name Samples.chrome = "chrome.exe"%string /\
  GetProcesses.Win32.pid Samples.chrome = of_Z 1234 /\
  GetProcesses.Win32.memory Samples.chrome = "50,000 K"%string /\
  GetProcesses.Win32.cpu Samples.chrome = "N/A"%string.
Proof. repeat split; vm_compute; reflexivity. Qed.

(** C3: the array returned by the POSIX rule is sorted by non-increasing
    cpu, and for every cpu value the records carrying it come in the order
    of their lines in the input. *)
Theorem posix_sorted_stable (output : string) :
  StronglySorted
    (fun a b => ge (GetProcesses.Posix.cpu a) (GetProcesses.Posix.cpu b) = true)
    (GetProcesses.Posix.parseFunction output) /\
  forall c : number,
    subseq
      (filter (fun p => JsNum.eqb (GetProcesses.Posix.cpu p) c)
         (GetProcesses.Posix.parseFunction output))
      (map GetProcesses.Posix.of_line (split output newline)).
Proof.
  unfold GetProcesses.Posix.parseFunction, slice0. split.
  - apply sorted_firstn.
    apply sorted_sort with (ok := fun p => is_nan (GetProcesses.Posix.cpu p) = false).
    + intros x y z. apply ge_trans.
    + intros x y Hx Hy. apply after_false_ge; assumption.
    + intros x y. apply after_true_ge.
    + apply posix_before_sort_not_nan.
  - intros c.
    eapply subseq_trans; [apply filter_firstn_subseq|].
    rewrite filter_sort.
    + eapply subseq_trans; [apply subseq_filter | apply posix_before_sort].
    + intros x y. apply after_true_other_class.
Qed.

(** On the sample listing the two processes at 3.5 per cent come first, in
    the order of their lines, and the line without a pid is gone. *)
Example posix_sample_order :
  map GetProcesses.Posix.name (GetProcesses.Posix.parseFunction Samples.ps_output)
  = ["vim"; "emacs"; "/sbin/init"]%string.
Proof. vm_compute. reflexivity. Qed.

(** C6: on both rules every record returned has a pid above zero, also
    through the handler, and a line whose pid parses to zero, to a negative
    number or to no number at all gives no record. *)
Theorem processes_pid_positive (platform output : string) :
  Forall (fun p => gt (GetProcesses.pid p) zero = true)
    (GetProcesses.parseFunction platform output) /\
  (forall execAsync c,
      exists l c', GetProcesses.handler platform execAsync c = (Resolved l, c') /\
                   Forall (fun p => gt (GetProcesses.pid p) zero = true) l) /\
  (forall line,
      gt (GetProcesses.Win32.pid (GetProcesses.Win32.of_line line)) zero = false ->
      ~ In (GetProcesses.Win32.of_line line) (GetProcesses.Win32.parseFunction output)) /\
  (forall line,
      gt (GetProcesses.Posix.pid (GetProcesses.Posix.of_line line)) zero = false ->
      ~ In (GetProcesses.Posix.of_line line) (GetProcesses.Posix.parseFunction output)).
Proof.
  split; [apply parseFunction_pid_positive|]. split; [|split].
  - intros execAsync c.
    destruct (handler_cases platform execAsync c) as [[r [_ ->]]|[e [_ ->]]];
      do 2 eexists; (split; [reflexivity|]).
    + apply parseFunction_pid_positive.
    + constructor.
  - intros line Hpid Hin.
    pose proof (win32_pid_positive output) as Hall.
    rewrite Forall_forall in Hall. apply Hall in Hin. congruence.
  - intros line Hpid Hin.
    pose proof (posix_pid_positive output) as Hall.
    rewrite Forall_forall in Hall. apply Hall in Hin. congruence.
Qed.

Lemma processes_pid_positive_witness :
  (gt (GetProcesses.Win32.pid (GetProcesses.Win32.of_line Samples.ghost_line)) zero = false /\
   ~ In (GetProcesses.Win32.of_line Samples.ghost_line)
        (GetProcesses.Win32.parseFunction Samples.tasklist_output)) /\
  (gt (GetProcesses.Posix.pid (GetProcesses.Posix.of_line Samples.ps_bad_line)) zero = false /\
   ~ In (GetProcesses.Posix.of_line Samples.ps_bad_line)
        (GetProcesses.Posix.parseFunction Samples.ps_output)).
Proof.
  split; (split; [reflexivity|]).
  - apply (proj1 (proj2 (proj2
      (processes_pid_positive "win32" Samples.tasklist_output)))).
    reflexivity.
  - apply (proj2 (proj2 (proj2
      (processes_pid_positive "linux" Samples.ps_output)))).
    reflexivity.
Defined.

(** C7: on both rules the array returned has at most 50 elements, and so
    has the array the handler returns, whatever the command did. *)
Theorem processes_at_most_50 (platform output : string) :
  (List.length (GetProcesses.parseFunction platform output) <= 50)%nat /\
  (List.length (GetProcesses.Win32.parseFunction output) <= 50)%nat /\
  (List.length (GetProcesses.Posix.parseFunction output) <= 50)%nat /\
  forall execAsync c,
    exists l c', GetProcesses.handler platform execAsync c = (Resolved l, c') /\
                 (List.length l <= 50)%nat.
Proof.
  split; [apply parseFunction_length|].
  split; [apply firstn_le_length|]. split; [apply firstn_le_length|].
  intros execAsync c.
  destruct (handler_cases platform execAsync c) as [[r [_ ->]]|[e [_ ->]]];
    do 2 eexists; (split; [reflexivity|]).
  - apply parseFunction_length.
  - simpl. lia.
Qed.

(** C8: the records returned by the Windows rule are the records of the
    input lines with some left out, in the order of the lines. *)
Theorem win32_keeps_line_order (output : string) :
  subseq (GetProcesses.Win32.parseFunction output)
         (map GetProcesses.Win32.of_line (split output newline)).
Proof.
  unfold GetProcesses.Win32.parseFunction, slice0.
  eapply subseq_trans; [apply subseq_firstn|].
  eapply subseq_trans; [apply subseq_filter|].
  apply subseq_map, subseq_filter.
Qed.

(* ===================================================================== *)
(** ** Failure of the external command *)
(* ===================================================================== *)

Lemma disk_handler_cases (platform : string)
    (execAsync : string -> outcome exec_output) (c : console) :
  (exists r, execAsync (GetDiskUsage.command platform) = Resolved r /\
             GetDiskUsage.handler platform execAsync c
             = (Resolved (GetDiskUsage.parseFunction platform (stdout r)), c)) \/
  (exists e, execAsync (GetDiskUsage.command platform) = Rejected e /\
             GetDiskUsage.handler platform execAsync c
             = (Resolved [], (c ++ ["Error getting disk usage: " ++ e]%string)%list)).
Proof.
  unfold GetDiskUsage.handler, try_catch, bind, await, ret, console_error.
  destruct (execAsync (GetDiskUsage.command platform)) as [r|e]; [left|right];
    eexists; split; reflexivity.
Qed.

(** C4: when [execAsync] rejects (the command could not be run or exited
    with a non-zero code), the process handler and the disk handler write
    one line to the console and return the empty array; and whatever
    [execAsync] does, neither handler throws. *)
Theorem handlers_return_empty_on_failure (platform : string)
    (execAsync : string -> outcome exec_output) (c : console) :
  (forall e, execAsync (GetProcesses.command platform) = Rejected e ->
     GetProcesses.handler platform execAsync c
     = (Resolved [], (c ++ ["Error getting processes: " ++ e]%string)%list)) /\
  (forall e, execAsync (GetDiskUsage.command platform) = Rejected e ->
     GetDiskUsage.handler platform execAsync c
     = (Resolved [], (c ++ ["Error getting disk usage: " ++ e]%string)%list)) /\
  (exists l c', GetProcesses.handler platform execAsync c = (Resolved l, c')) /\
  (exists l c', GetDiskUsage.handler platform execAsync c = (Resolved l, c')).
Proof.
  split; [|split; [|split]].
  - intros e He.
    destruct (handler_cases platform execAsync c) as [[r [Hr _]]|[e' [He' ->]]];
      congruence.
  - intros e He.
    destruct (disk_handler_cases platform execAsync c) as [[r [Hr _]]|[e' [He' ->]]];
      congruence.
  - destruct (handler_cases platform execAsync c) as [[r [_ ->]]|[e [_ ->]]];
      do 2 eexists; reflexivity.
  - destruct (disk_handler_cases platform execAsync c) as [[r [_ ->]]|[e [_ ->]]];
      do 2 eexists; reflexivity.
Qed.

Lemma handlers_return_empty_on_failure_witness :
  GetProcesses.handler "win32" Samples.failing_exec []
  = (Resolved [], ["Error getting processes: spawn ENOENT"%string]) /\
  GetDiskUsage.handler "linux" Samples.failing_exec []
  = (Resolved [], ["Error getting disk usage: spawn ENOENT"%string]).
Proof.
  split.
  - apply (proj1 (handlers_return_empty_on_failure "win32" Samples.failing_exec [])
             "spawn ENOENT"%string).
    reflexivity.
  - apply (proj1 (proj2 (handlers_return_empty_on_failure "linux" Samples.failing_exec []))
             "spawn ENOENT"%string).
    reflexivity.
Defined.

(* ===================================================================== *)
(** ** The CPU percentage *)
(* ===================================================================== *)

Section CpuFacts.

Import GetCpuUsage CpuSpec.

Lemma is_fin_eq (n : number) (q q' : Q) : is_fin n q -> q == q' -> is_fin n q'.
Proof. destruct n; simpl; try tauto. intros H1 H2. rewrite H1. exact H2. Qed.

Lemma is_fin_inv (n : number) (q : Q) : is_fin n q -> exists x, n = Fin x /\ x == q.
Proof. destruct n; simpl; try tauto. intros H. eexists; split; [reflexivity|exact H]. Qed.

Lemma is_counter_inv (n : number) :
  is_counter n = true -> exists x, n = Fin x /\ 0 <= x /\ value n = x.
Proof.
  destruct n; simpl; try discriminate. intros H. apply Qle_bool_iff in H.
  eexists; split; [reflexivity | split; [exact H | reflexivity]].
Qed.

Lemma counters_inv (cpu : CpuInfo) :
  counters cpu = true ->
  exists u n s i q,
    user (times cpu) = Fin u /\ nice (times cpu) = Fin n /\
    sys (times cpu) = Fin s /\ idle (times cpu) = Fin i /\
    irq (times cpu) = Fin q /\
    0 <= u /\ 0 <= n /\ 0 <= s /\ 0 <= i /\ 0 <= q /\
    core_idle cpu = i /\ core_total cpu = u + n + s + i + q.
Proof.
  unfold counters, core_idle, core_total. intros H.
  repeat (apply andb_prop in H; destruct H as [H ?]).
  repeat match goal with
  | K : is_counter _ = true |- _ =>
      apply is_counter_inv in K; destruct K as [? [? [? ?]]]
  end.
  do 5 eexists. repeat split; try eassumption; congruence.
Qed.

Lemma totalIdle_from (cpus : list CpuInfo) (a : Q) :
  forallb counters cpus = true ->
  is_fin (fold_left (fun acc cpu => add acc (idle (times cpu))) cpus (Fin a))
         (a + sumIdle cpus).
Proof.
  revert a. induction cpus as [|cpu cpus IH]; intros a H; simpl in *.
  - unfold sumIdle; simpl. ring.
  - apply andb_prop in H. destruct H as [Hc H].
    destruct (counters_inv _ Hc)
      as (u & n & s & i & q & Hu & Hn & Hs & Hi & Hq & _ & _ & _ & _ & _ & Hidle & _).
    rewrite Hi. simpl. eapply is_fin_eq; [apply IH; exact H|].
    unfold sumIdle; simpl. rewrite Hidle. fold (sumIdle cpus). ring.
Qed.

Lemma totalTick_from (cpus : list CpuInfo) (a : Q) :
  forallb counters cpus = true ->
  is_fin (fold_left
            (fun acc cpu =>
               add (add (add (add (add acc (user (times cpu))) (nice (times cpu)))
                             (sys (times cpu))) (idle (times cpu))) (irq (times cpu)))
            cpus (Fin a))
         (a + sumTicks cpus).
Proof.
  revert a. induction cpus as [|cpu cpus IH]; intros a H; simpl in *.
  - unfold sumTicks; simpl. ring.
  - apply andb_prop in H. destruct H as [Hc H].
    destruct (counters_inv _ Hc)
      as (u & n & s & i & q & Hu & Hn & Hs & Hi & Hq & _ & _ & _ & _ & _ & _ & Htot).
    rewrite Hu, Hn, Hs, Hi, Hq. simpl. eapply is_fin_eq; [apply IH; exact H|].
    unfold sumTicks; simpl. rewrite Htot. fold (sumTicks cpus). ring.
Qed.

(** On counters the two reductions are the sums of the specification. *)
Lemma totals (cpus : list CpuInfo) :
  forallb counters cpus = true ->
  exists I T, totalIdle cpus = Fin I /\ totalTick cpus = Fin T /\
              I == sumIdle cpus /\ T == sumTicks cpus.
Proof.
  intros H.
  destruct (is_fin_inv _ _ (totalIdle_from cpus 0 H)) as [I [HI EI]].
  destruct (is_fin_inv _ _ (totalTick_from cpus 0 H)) as [T [HT ET]].
  exists I, T. repeat split; try assumption.
  - rewrite EI. ring.
  - rewrite ET. ring.
Qed.

Lemma sums_bounds (cpus : list CpuInfo) :
  forallb counters cpus = true ->
  0 <= sumIdle cpus /\ sumIdle cpus <= sumTicks cpus.
Proof.
  unfold sumIdle, sumTicks.
  induction cpus as [|cpu cpus IH]; intros H; simpl in *.
  - split; apply Qle_refl.
  - apply andb_prop in H. destruct H as [Hc H]. destruct (IH H) as [IH1 IH2].
    destruct (counters_inv _ Hc)
      as (u & n & s & i & q & _ & _ & _ & _ & _ & Hu & Hn & Hs & Hi & Hq & -> & ->).
    split; lra.
Qed.



Lemma all_zero_core (cpu : CpuInfo) :
  all_zero cpu = true -> counters cpu = true /\ core_total cpu == 0.
Proof.
  unfold all_zero, counters, core_total. intros Hc.
  repeat (apply andb_prop in Hc; destruct Hc as [Hc ?]).
  destruct (user (times cpu)), (nice (times cpu)), (sys (times cpu)),
    (idle (times cpu)), (irq (times cpu)); simpl in *; try discriminate.
  repeat match goal with
  | K : Qeq_bool _ _ = true |- _ => apply Qeq_bool_iff in K
  end.
  split.
  - repeat (apply andb_true_intro; split); apply Qle_bool_iff; lra.
  - lra.
Qed.

Lemma all_zero_counters (cpus : list CpuInfo) :
  forallb all_zero cpus = true ->
  forallb counters cpus = true /\ sumTicks cpus == 0.
Proof.
  unfold sumTicks.
  induction cpus as [|cpu cpus IH]; intros H; simpl in *; [split; reflexivity|].
  apply andb_prop in H. destruct H as [Hc H]. destruct (IH H) as [IH1 IH2].
  destruct (all_zero_core _ Hc) as [C1 C2].
  rewrite C1, IH1, C2, IH2. split; reflexivity.
Qed.

Lemma usage_nan_of_zero_ticks (cpus : list CpuInfo) (loadavg : list number) :
  forallb counters cpus = true -> sumTicks cpus == 0 ->
  usage (handler cpus loadavg) = NaN.
Proof.
  intros H H0. destruct (totals cpus H) as (I & T & HI & HT & EI & ET).
  destruct (sums_bounds cpus H) as [B1 B2].
  unfold handler; simpl. rewrite HI, HT. simpl.
  unfold sgn. qcases; try lra. reflexivity.
Qed.

End CpuFacts.



(** C10: the usage is computed with no test of the divisor; on the empty
    snapshot, on a snapshot whose counters are all zero, and on any
    snapshot of counters whose total is zero, it is NaN. *)
Theorem cpu_usage_nan (cpus : list GetCpuUsage.CpuInfo) (loadavg : list number) :
  GetCpuUsage.usage (GetCpuUsage.handler [] loadavg) = NaN /\
  (forallb CpuSpec.all_zero cpus = true ->
   GetCpuUsage.usage (GetCpuUsage.handler cpus loadavg) = NaN) /\
  (forallb CpuSpec.counters cpus = true -> CpuSpec.sumTicks cpus == 0 ->
   GetCpuUsage.usage (GetCpuUsage.handler cpus loadavg) = NaN).
Proof.
  split; [reflexivity|]. split.
  - intros H. apply all_zero_counters in H. destruct H as [H1 H2].
    apply usage_nan_of_zero_ticks; assumption.
  - apply usage_nan_of_zero_ticks.
Qed.

Lemma cpu_usage_nan_witness :
  GetCpuUsage.usage
    (GetCpuUsage.handler [CpuSpec.core 0 0 0 0 0; CpuSpec.core 0 0 0 0 0] []) = NaN.
Proof.
  apply (proj1 (proj2 (cpu_usage_nan
                         [CpuSpec.core 0 0 0 0 0; CpuSpec.core 0 0 0 0 0] []))).
  reflexivity.
Defined.

(* ===================================================================== *)
(** ** The Windows volume listing *)
(* ===================================================================== *)

Section DiskFacts.

Lemma split_ws_go_head (cur : string) (insp : bool) (s : string) :
  exists x l, split_ws_go cur insp s = x :: l.
Proof.
  revert cur insp. induction s as [|c s IH]; intros cur insp; simpl.
  - do 2 eexists; reflexivity.
  - destruct (is_space c); [destruct insp|]; try apply IH.
    do 2 eexists; reflexivity.
Qed.

Lemma gt_of_Z_zero (z : Z) : gt (of_Z z) zero = (0 <? z)%Z.
Proof.
  unfold gt, of_Z, zero, Qcompare. simpl. rewrite Z.mul_1_r.
  destruct z; reflexivity.
Qed.

Lemma eqb_zero_not_gt (a : number) : JsNum.eqb a zero = true -> gt a zero = false.
Proof.
  destruct a; simpl; try discriminate. intros E. apply Qeq_bool_iff in E.
  destruct (Qcompare_spec q 0); try reflexivity. lra.
Qed.

Lemma div_by_positive (x d : Q) : 0 < d -> div (Fin x) (Fin d) = Fin (x / d).
Proof.
  intros Hd. unfold div, sgn. destruct (Qcompare_spec d 0); try lra; reflexivity.
Qed.

End DiskFacts.

(* ===================================================================== *)
(** ** The uptime text *)
(* ===================================================================== *)

Section UptimeFacts.

Lemma rem_by_positive (x d : Q) :
  0 <= x -> 0 < d -> rem (Fin x) (Fin d) = Fin (UptimeSpec.Qmod x d).
Proof.
  intros Hx Hd. unfold rem, sgn. destruct (Qcompare_spec d 0); try lra.
  unfold UptimeSpec.Qmod, Qtrunc, sgn.
  destruct (Qcompare_spec (x / d) 0) as [E|L|G]; try reflexivity.
  assert (0 <= x / d) by (apply Qle_shift_div_l; lra). lra.
Qed.

Lemma gt_floor_zero (q : Q) : gt (floor (Fin q)) zero = (Qfloor q >? 0)%Z.
Proof.
  simpl floor. fold (of_Z (Qfloor q)). rewrite gt_of_Z_zero.
  rewrite Z.gtb_ltb. reflexivity.
Qed.

Lemma toString_floor (q : Q) : toString (floor (Fin q)) = string_of_Z (Qfloor q).
Proof. unfold floor, toString. rewrite Qfloor_Z. reflexivity. Qed.

End UptimeFacts.

(** C9: on every non-negative number of seconds [formatUptime] returns the
    text of the specification, built from days = floor(seconds / 86400),
    hours = floor((seconds mod 86400) / 3600) and
    minutes = floor((seconds mod 3600) / 60); it maps 0 to [0m], 3661 to
    [1h 1m] and 90061 to [1d 1h 1m]. *)
Theorem formatUptime_text (seconds : Q) :
  (0 <= seconds -> Uptime.formatUptime (Fin seconds) = UptimeSpec.text seconds) /\
  Uptime.formatUptime (of_Z 0) = "0m"%string /\
  Uptime.formatUptime (of_Z 3661) = "1h 1m"%string /\
  Uptime.formatUptime (of_Z 90061) = "1d 1h 1m"%string.
Proof.
  split; [|repeat split; vm_compute; reflexivity].
  intros Hs. unfold Uptime.formatUptime, UptimeSpec.text, of_Z.
  rewrite !rem_by_positive by (assumption || reflexivity).
  rewrite !div_by_positive by reflexivity.
  rewrite !gt_floor_zero, !toString_floor.
  reflexivity.
Qed.

Lemma formatUptime_text_witness :
  Uptime.formatUptime (Fin (7384 # 1)) = "2h 3m"%string.
Proof.
  rewrite (proj1 (formatUptime_text (7384 # 1))).
  - vm_compute. reflexivity.
  - discriminate.
Defined.

(* ===================================================================== *)
(** ** Further properties of the process listing *)
(* ===================================================================== *)

Section MoreListFacts.
Context {A B : Type}.

Lemma filter_map_swap' (f : A -> B) (p : B -> bool) (l : list A) :
  filter p (map f l) = map f (filter (fun x => p (f x)) l).
Proof.
  induction l as [|x l IH]; simpl; [reflexivity|].
  destruct (p (f x)); simpl; rewrite IH; reflexivity.
Qed.

Lemma filter_filter (p q : A -> bool) (l : list A) :
  filter q (filter p l) = filter (fun x => p x && q x) l.
Proof.
  induction l as [|x l IH]; simpl; [reflexivity|].
  destruct (p x); simpl; [destruct (q x)|]; rewrite IH; reflexivity.
Qed.

Lemma Permutation_insert (c : A -> A -> number) (x : A) (l : list A) :
  Permutation (insert c x l) (x :: l).
Proof.
  induction l as [|y l IH]; simpl; [apply Permutation_refl|].
  destruct (after c x y); [|apply Permutation_refl].
  eapply Permutation_trans; [apply perm_skip, IH | apply perm_swap].
Qed.

Lemma Permutation_sort (c : A -> A -> number) (l : list A) :
  Permutation (sort c l) l.
Proof.
  induction l as [|x l IH]; simpl; [apply Permutation_refl|].
  eapply Permutation_trans; [apply Permutation_insert | apply perm_skip, IH].
Qed.

Lemma sorted_app_inv (R : A -> A -> Prop) (l1 l2 : list A) :
  StronglySorted R (l1 ++ l2) ->
  forall a b, In a l1 -> In b l2 -> R a b.
Proof.
  induction l1 as [|x l1 IH]; simpl; intros Hs a b Ha Hb; [contradiction|].
  inversion Hs as [|? ? Hs' Hx]; subst.
  destruct Ha as [->|Ha].
  - rewrite Forall_forall in Hx. apply Hx. apply in_or_app. right. exact Hb.
  - apply IH; assumption.
Qed.
End MoreListFacts.

Section MoreProcessFacts.

Import GetProcesses ProcessSpec.

Lemma win32_before_slice (output : string) :
  filter (fun process => gt (Win32.pid process) zero)
    (map Win32.of_line (filter Win32.keep_line (split output newline)))
  = win32_records output.
Proof.
  unfold win32_records. rewrite filter_map_swap', filter_filter. reflexivity.
Qed.

Lemma posix_before_sort_records (output : string) :
  filter (fun process => gt (Posix.pid process) zero)
    (map Posix.of_line (filter Posix.keep_line (split output newline)))
  = posix_records output.
Proof.
  unfold posix_records. rewrite filter_map_swap', filter_filter. reflexivity.
Qed.

Lemma win32_parse_records (output : string) :
  Win32.parseFunction output = firstn 50 (win32_records output).
Proof.
  unfold Win32.parseFunction, slice0. rewrite win32_before_slice. reflexivity.
Qed.

Lemma posix_parse_records (output : string) :
  Posix.parseFunction output
  = firstn 50 (sort Posix.compareFn (posix_records output)).
Proof.
  unfold Posix.parseFunction, slice0. rewrite posix_before_sort_records. reflexivity.
Qed.

Lemma posix_records_not_nan (output : string) :
  Forall (fun p => is_nan (Posix.cpu p) = false) (posix_records output).
Proof.
  apply Forall_forall. intros p Hp. unfold posix_records in Hp.
  apply in_map_iff in Hp. destruct Hp as [line [<- _]].
  apply or_zero_not_nan.
Qed.

Lemma win32_record_line (output : string) (r : Win32.process) :
  In r (Win32.parseFunction output) ->
  exists line, In line (split output newline) /\ win32_valid line = true /\
               r = Win32.of_line line.
Proof.
  rewrite win32_parse_records. intros Hr.
  apply (subseq_In _ (subseq_firstn _ _)) in Hr.
  apply in_map_iff in Hr. destruct Hr as [line [<- Hl]].
  apply filter_In in Hl. exists line. intuition.
Qed.

Lemma posix_record_line (output : string) (r : Posix.process) :
  In r (Posix.parseFunction output) ->
  exists line, In line (split output newline) /\ posix_valid line = true /\
               r = Posix.of_line line.
Proof.
  rewrite posix_parse_records. intros Hr.
  apply (subseq_In _ (subseq_firstn _ _)) in Hr.
  apply (proj1 (In_sort _ _ _)) in Hr.
  apply in_map_iff in Hr. destruct Hr as [line [<- Hl]].
  apply filter_In in Hl. exists line. intuition.
Qed.

End MoreProcessFacts.

(** X1: on both rules the listing has as many records as there are valid
    lines (kept lines whose pid is above zero), up to 50. *)
Theorem processes_count (output : string) :
  List.length (GetProcesses.Win32.parseFunction output)
  = Nat.min 50 (List.length (filter ProcessSpec.win32_valid (split output newline))) /\
  List.length (GetProcesses.Posix.parseFunction output)
  = Nat.min 50 (List.length (filter ProcessSpec.posix_valid (split output newline))).
Proof.
  rewrite win32_parse_records, posix_parse_records. split.
  - rewrite length_firstn. unfold ProcessSpec.win32_records.
    rewrite length_map. reflexivity.
  - rewrite length_firstn.
    rewrite (Permutation_length (Permutation_sort _ _)).
    unfold ProcessSpec.posix_records. rewrite length_map. reflexivity.
Qed.

(** X2: the POSIX rule returns the records of highest cpu: the listing and
    the records it leaves out make up the records of the valid lines, no
    record left out has more cpu than a record returned, and nothing is left
    out when there are at most 50 valid lines. *)
Theorem posix_keeps_highest_cpu (output : string) :
  exists rest : list GetProcesses.Posix.process,
    Permutation (GetProcesses.Posix.parseFunction output ++ rest)
                (ProcessSpec.posix_records output) /\
    (forall a b, In a (GetProcesses.Posix.parseFunction output) -> In b rest ->
                 ge (GetProcesses.Posix.cpu a) (GetProcesses.Posix.cpu b) = true) /\
    ((List.length (ProcessSpec.posix_records output) <= 50)%nat -> rest = []).
Proof.
  rewrite posix_parse_records.
  set (s := sort GetProcesses.Posix.compareFn (ProcessSpec.posix_records output)).
  exists (skipn 50 s). split; [|split].
  - rewrite firstn_skipn. apply Permutation_sort.
  - apply sorted_app_inv. rewrite firstn_skipn. unfold s.
    apply sorted_sort with (ok := fun p => is_nan (GetProcesses.Posix.cpu p) = false).
    + intros x y z. apply ge_trans.
    + intros x y Hx Hy. apply after_false_ge; assumption.
    + intros x y. apply after_true_ge.
    + apply posix_records_not_nan.
  - intros Hlen. apply skipn_all2. unfold s.
    rewrite (Permutation_length (Permutation_sort _ _)). exact Hlen.
Qed.

Lemma posix_keeps_highest_cpu_witness :
  exists rest : list GetProcesses.Posix.process,
    Permutation (GetProcesses.Posix.parseFunction Samples.ps_output ++ rest)
                (ProcessSpec.posix_records Samples.ps_output) /\
    rest = [].
Proof.
  destruct (posix_keeps_highest_cpu Samples.ps_output) as (rest & Hperm & _ & Hall).
  exists rest. split; [exact Hperm|]. apply Hall. vm_compute. lia.
Defined.

(** X3: every record of the process listing is the record of a line of the
    output that is not blank, has a pid above zero and, on Windows, does not
    contain the header marker. *)
Theorem process_records_come_from_lines (output : string) :
  (forall r, In r (GetProcesses.Win32.parseFunction output) ->
     exists line,
       In line (split output newline) /\ r = GetProcesses.Win32.of_line line /\
       is_empty (trim line) = false /\
       includes line GetProcesses.Win32.header_marker = false /\
       gt (GetProcesses.Win32.pid r) zero = true) /\
  (forall r, In r (GetProcesses.Posix.parseFunction output) ->
     exists line,
       In line (split output newline) /\ r = GetProcesses.Posix.of_line line /\
       is_empty (trim line) = false /\
       gt (GetProcesses.Posix.pid r) zero = true).
Proof.
  split; intros r Hr.
  - destruct (win32_record_line _ _ Hr) as (line & Hl & Hv & ->).
    unfold ProcessSpec.win32_valid, GetProcesses.Win32.keep_line, JsString.truthy in Hv.
    exists line. repeat (apply andb_prop in Hv; destruct Hv as [Hv ?]).
    repeat split; try assumption.
    + destruct (is_empty (trim line)); [discriminate | reflexivity].
    + destruct (includes line _); [discriminate | reflexivity].
  - destruct (posix_record_line _ _ Hr) as (line & Hl & Hv & ->).
    unfold ProcessSpec.posix_valid, GetProcesses.Posix.keep_line, JsString.truthy in Hv.
    exists line. apply andb_prop in Hv. destruct Hv as [Hv ?].
    repeat split; try assumption.
    destruct (is_empty (trim line)); [discriminate | reflexivity].
Qed.

Lemma process_records_come_from_lines_witness :
  exists line,
    In line (split Samples.tasklist_output newline) /\
    Samples.chrome = GetProcesses.Win32.of_line line /\
    includes line GetProcesses.Win32.header_marker = false.
Proof.
  destruct (proj1 (process_records_come_from_lines Samples.tasklist_output)
              Samples.chrome) as (line & H1 & H2 & _ & H3 & _).
  - vm_compute. left. reflexivity.
  - exists line. repeat split; assumption.
Defined.

(* ===================================================================== *)
(** ** The text fields of the records *)
(* ===================================================================== *)

Section FieldFacts.

Import StringSpec.

Lemma forallb_string_snoc (p : ascii -> bool) (s : string) (c : ascii) :
  forallb_string p (s ++ String c EmptyString) = forallb_string p s && p c.
Proof.
  induction s as [|d s IH]; simpl.
  - rewrite andb_true_r. reflexivity.
  - rewrite IH, andb_assoc. reflexivity.
Qed.

Lemma remove_all_clean (c : ascii) (s : string) :
  forallb_string (fun d => negb (Ascii.eqb d c)) (remove_all c s) = true.
Proof.
  induction s as [|d s IH]; simpl; [reflexivity|].
  destruct (Ascii.eqb d c) eqn:E; simpl; [exact IH|].
  rewrite E, IH. reflexivity.
Qed.

Lemma or_str_prop (P : string -> Prop) (o : option string) (d : string) :
  P d -> (forall s, o = Some s -> P s) -> P (or_str o d).
Proof.
  intros Hd Ho. unfold or_str. destruct o as [s|]; [|exact Hd].
  destruct (JsString.truthy s); [apply Ho; reflexivity | exact Hd].
Qed.

Lemma split_ws_go_no_space (cur : string) (insp : bool) (s : string) :
  no_space cur = true ->
  Forall (fun x => no_space x = true) (split_ws_go cur insp s).
Proof.
  revert cur insp. induction s as [|c s IH]; intros cur insp Hcur; simpl.
  - constructor; [exact Hcur | constructor].
  - destruct (is_space c) eqn:E.
    + destruct insp; [apply IH; exact Hcur|].
      constructor; [exact Hcur | apply IH; reflexivity].
    + apply IH. unfold no_space. rewrite forallb_string_snoc.
      fold (no_space cur). rewrite Hcur, E. reflexivity.
Qed.

Lemma split_ws_no_space (s x : string) (i : nat) :
  nth_error (split_ws s) i = Some x -> no_space x = true.
Proof.
  intros H. apply nth_error_In in H.
  pose proof (split_ws_go_no_space EmptyString false s eq_refl) as Hall.
  rewrite Forall_forall in Hall. apply Hall. exact H.
Qed.

Lemma split_ws_go_head_nonempty (cur s : string) :
  is_empty cur = false ->
  exists x l, split_ws_go cur false s = x :: l /\ is_empty x = false.
Proof.
  revert cur. induction s as [|c s IH]; intros cur Hcur; simpl.
  - do 2 eexists; split; [reflexivity | exact Hcur].
  - destruct (is_space c).
    + do 2 eexists; split; [reflexivity | exact Hcur].
    + apply IH. destruct cur; reflexivity.
Qed.

Lemma trimStart_head (s : string) (c : ascii) (r : string) :
  trimStart s = String c r -> is_space c = false.
Proof.
  induction s as [|d s IH]; simpl; [discriminate|].
  destruct (is_space d) eqn:E; [exact IH|].
  intros H. injection H as <- _. exact E.
Qed.

(** A line that is not blank has a first field, and it is not empty. *)
Lemma first_field_nonempty (line : string) :
  is_empty (trim line) = false ->
  exists x l, split_ws (trim line) = x :: l /\ is_empty x = false.
Proof.
  unfold trim. intros H.
  destruct (trimStart line) as [|c r] eqn:E; [discriminate H|].
  apply trimStart_head in E. simpl in *. rewrite E, andb_false_r in *.
  unfold split_ws. simpl. rewrite E.
  apply split_ws_go_head_nonempty. reflexivity.
Qed.

End FieldFacts.

(** X4: the name and the memory of a record of the Windows rule never
    contain a double quote, whatever the line. *)
Theorem win32_fields_without_quotes (output line : string) :
  StringSpec.no_quote (GetProcesses.Win32.name (GetProcesses.Win32.of_line line)) = true /\
  StringSpec.no_quote (GetProcesses.Win32.memory (GetProcesses.Win32.of_line line)) = true /\
  Forall (fun p => StringSpec.no_quote (GetProcesses.Win32.name p) = true /\
                   StringSpec.no_quote (GetProcesses.Win32.memory p) = true)
         (GetProcesses.Win32.parseFunction output).
Proof.
  assert (Hline : forall l,
    StringSpec.no_quote (GetProcesses.Win32.name (GetProcesses.Win32.of_line l)) = true /\
    StringSpec.no_quote (GetProcesses.Win32.memory (GetProcesses.Win32.of_line l)) = true).
  { intros l. unfold GetProcesses.Win32.of_line, GetProcesses.Win32.parts_of.
    cbn [GetProcesses.Win32.name GetProcesses.Win32.memory].
    split; (apply or_str_prop; [reflexivity|]); intros s Hs;
      apply nth_error_In, in_map_iff in Hs; destruct Hs as [x [<- _]];
      apply remove_all_clean. }
  split; [apply Hline|]. split; [apply Hline|].
  apply Forall_forall. intros p Hp.
  destruct (win32_record_line _ _ Hp) as (l & _ & _ & ->). apply Hline.
Qed.

(** X5: a record of the POSIX rule has a name that is not empty, and its
    name, tty, stat, start and time are single fields: none contains white
    space. *)
Theorem posix_fields_single_words (output : string) :
  Forall (fun p => is_empty (GetProcesses.Posix.name p) = false /\
                   StringSpec.no_space (GetProcesses.Posix.name p) = true /\
                   StringSpec.no_space (GetProcesses.Posix.tty p) = true /\
                   StringSpec.no_space (GetProcesses.Posix.stat p) = true /\
                   StringSpec.no_space (GetProcesses.Posix.start p) = true /\
                   StringSpec.no_space (GetProcesses.Posix.time p) = true)
         (GetProcesses.Posix.parseFunction output).
Proof.
  apply Forall_forall. intros p Hp.
  destruct (posix_record_line _ _ Hp) as (line & _ & Hv & ->).
  unfold ProcessSpec.posix_valid, GetProcesses.Posix.keep_line, JsString.truthy in Hv.
  apply andb_prop in Hv. destruct Hv as [Hne _].
  apply negb_true_iff in Hne.
  destruct (first_field_nonempty _ Hne) as (x & l & Hparts & Hx).
  unfold GetProcesses.Posix.of_line, GetProcesses.Posix.parts_of.
  cbn [GetProcesses.Posix.name GetProcesses.Posix.tty GetProcesses.Posix.stat
       GetProcesses.Posix.start GetProcesses.Posix.time].
  split.
  - unfold or_str at 1.
    destruct (nth_error (split_ws (trim line)) 10) as [s|].
    + unfold JsString.truthy. destruct (is_empty s) eqn:Es; simpl; [|exact Es].
      rewrite Hparts. simpl. unfold JsString.truthy. rewrite Hx. exact Hx.
    + rewrite Hparts. simpl. unfold JsString.truthy. rewrite Hx. exact Hx.
  - split.
    + apply or_str_prop; [apply or_str_prop; [reflexivity|]|];
        intros s Hs; eapply split_ws_no_space; exact Hs.
    + repeat split; (apply or_str_prop; [reflexivity|]);
        intros s Hs; eapply split_ws_no_space; exact Hs.
Qed.

(* ===================================================================== *)
(** ** Reading decimal numerals *)
(* ===================================================================== *)

Section NumeralFacts.

Import StringSpec.

Lemma uint_value_pos (d : Decimal.uint) (acc : positive) :
  uint_value d (Zpos acc) = Zpos (Pos.of_uint_acc d acc).
Proof.
  revert acc. induction d; intros acc; cbn [uint_value Pos.of_uint_acc];
    try reflexivity; rewrite <- IHd; f_equal; lia.
Qed.

Lemma uint_value_zero (d : Decimal.uint) :
  uint_value d 0 = Z.of_N (Pos.of_uint d).
Proof.
  induction d; cbn [uint_value Pos.of_uint Z.of_N]; try reflexivity;
    try exact IHd; apply (uint_value_pos d).
Qed.

Lemma uint_value_to_uint (p : positive) : uint_value (Pos.to_uint p) 0 = Zpos p.
Proof. rewrite uint_value_zero, DecimalPos.Unsigned.of_to. reflexivity. Qed.

Lemma stops_numeral_digit (rest : string) :
  stops_numeral rest = true ->
  forall acc n, read_digits 10 acc n rest = (n, acc, rest).
Proof.
  destruct rest as [|c r]; simpl; [reflexivity|].
  destruct (digit_val 10 c); [discriminate | reflexivity].
Qed.

Lemma read_digits_uint (d : Decimal.uint) (rest : string) (acc : Z) (n : nat) :
  stops_numeral rest = true ->
  read_digits 10 acc n (NilEmpty.string_of_uint d ++ rest)
  = ((Decimal.nb_digits d + n)%nat, uint_value d acc, rest).
Proof.
  intros Hrest. revert acc n.
  induction d; intros acc n;
    try (cbn [NilEmpty.string_of_uint append read_digits uint_value Decimal.nb_digits];
         change (digit_val 10 _) with (Some 0%Z) || change (digit_val 10 _) with (Some 1%Z)
         || change (digit_val 10 _) with (Some 2%Z) || change (digit_val 10 _) with (Some 3%Z)
         || change (digit_val 10 _) with (Some 4%Z) || change (digit_val 10 _) with (Some 5%Z)
         || change (digit_val 10 _) with (Some 6%Z) || change (digit_val 10 _) with (Some 7%Z)
         || change (digit_val 10 _) with (Some 8%Z) || change (digit_val 10 _) with (Some 9%Z);
         cbv iota; rewrite IHd; f_equal; f_equal; lia).
  simpl. apply stops_numeral_digit. exact Hrest.
Qed.

Lemma strip_hex_zero (c : ascii) (r : string) :
  Ascii.eqb c "x"%char || Ascii.eqb c "X"%char = false ->
  strip_hex_prefix (String "0"%char (String c r)) = None.
Proof.
  destruct c as [[] [] [] [] [] [] [] []]; simpl; try reflexivity; discriminate.
Qed.

(** A numeral that is not empty and not [0] starts with neither white
    space, a sign nor the hexadecimal prefix. *)
Lemma numeral_head (d : Decimal.uint) (rest : string) :
  d <> Decimal.Nil -> d <> Decimal.D0 Decimal.Nil ->
  let s := NilEmpty.string_of_uint d ++ rest in
  trimStart s = s /\ read_sign s = (false, s) /\ strip_hex_prefix s = None.
Proof.
  intros Hnil Hzero.
  destruct d as [|d|d|d|d|d|d|d|d|d|d]; try congruence;
    try (repeat split; reflexivity).
  destruct d; try congruence; repeat split; reflexivity.
Qed.

Lemma parse_digits_pos (p : positive) (rest : string) (negative : bool) :
  stops_numeral rest = true ->
  let s := NilEmpty.string_of_uint (Pos.to_uint p) ++ rest in
  (let (radix, s2) :=
     match strip_hex_prefix s with
     | Some r => (16%Z, r)
     | None => (10%Z, s)
     end in
   match read_digits radix 0 0 s2 with
   | (O, _, _) => NaN
   | (_, v, _) => of_Z (if negative then - v else v)
   end) = of_Z (if negative then Zneg p else Zpos p).
Proof.
  intros Hrest s.
  destruct (@numeral_head (Pos.to_uint p) rest
              (DecimalPos.Unsigned.to_uint_nonnil p)
              (DecimalPos.Unsigned.to_uint_nonzero p)) as (_ & _ & Hhex).
  fold s in Hhex. rewrite Hhex. unfold s.
  rewrite read_digits_uint by exact Hrest.
  rewrite uint_value_to_uint.
  destruct (Decimal.nb_digits (Pos.to_uint p)) eqn:E.
  - exfalso. pose proof (DecimalPos.Unsigned.to_uint_nonnil p) as Hn.
    destruct (Pos.to_uint p); simpl in E; congruence.
  - simpl. destruct negative; reflexivity.
Qed.

(** [parseInt] reads back the decimal numeral of an integer that binary64
    holds exactly. *)
Lemma parseInt_numeral (z : Z) (rest : string) :
  safe_integer z ->
  stops_numeral rest = true ->
  parseInt (Some (string_of_Z z ++ rest)%string) = of_Z z.
Proof.
  intros _ Hrest. unfold parseInt, string_of_Z. destruct z as [|p|p]; simpl Z.to_int.
  - change (NilZero.string_of_int (Decimal.Pos Decimal.zero) ++ rest)%string
      with (String "0"%char rest).
    change (trimStart (String "0" rest)) with (String "0"%char rest).
    change (read_sign (String "0" rest)) with (false, String "0"%char rest).
    assert (Hhex : strip_hex_prefix (String "0" rest) = None).
    { destruct rest as [|c r]; [reflexivity|]. apply strip_hex_zero.
      simpl in Hrest. destruct (digit_val 10 c); [discriminate|].
      apply negb_true_iff in Hrest. exact Hrest. }
    cbv beta iota. rewrite Hhex.
    change (read_digits 10 0 0 (String "0" rest)) with (read_digits 10 0 1 rest).
    rewrite stops_numeral_digit by exact Hrest. reflexivity.
  - unfold NilZero.string_of_int, NilZero.string_of_uint.
    pose proof (DecimalPos.Unsigned.to_uint_nonnil p) as Hn.
    destruct (Pos.to_uint p) eqn:E; try congruence; rewrite <- E;
      destruct (@numeral_head (Pos.to_uint p) rest
                  (DecimalPos.Unsigned.to_uint_nonnil p)
                  (DecimalPos.Unsigned.to_uint_nonzero p)) as (Ht & Hs & _);
      rewrite Ht, Hs; apply (@parse_digits_pos p rest false Hrest).
  - unfold NilZero.string_of_int, NilZero.string_of_uint.
    pose proof (DecimalPos.Unsigned.to_uint_nonnil p) as Hn.
    destruct (Pos.to_uint p) eqn:E; try congruence; rewrite <- E;
      cbn [append];
      change (trimStart (String "-" ?s)) with (String "-"%char s);
      cbn [trimStart read_sign];
      apply (@parse_digits_pos p rest true Hrest).
Qed.

Lemma or_of_Z (z : Z) : JsNum.or (of_Z z) zero = of_Z z.
Proof.
  unfold JsNum.or, JsNum.truthy, of_Z, zero, Qeq_bool. simpl.
  rewrite Z.mul_1_r. destruct z; reflexivity.
Qed.

End NumeralFacts.

(* ===================================================================== *)
(** ** Further properties of the volume listing *)
(* ===================================================================== *)

Section MoreDiskFacts.

Import StringSpec.

Lemma append_empty (s : string) : (s ++ EmptyString)%string = s.
Proof. induction s as [|c s IH]; simpl; [|rewrite IH]; reflexivity. Qed.

Lemma parseInt_numeral_alone (z : Z) :
  safe_integer z -> parseInt (Some (string_of_Z z)) = of_Z z.
Proof.
  intros Hz. rewrite <- (append_empty (string_of_Z z)).
  apply parseInt_numeral; [exact Hz | reflexivity].
Qed.

Lemma remove_first_last (c : ascii) (s : string) :
  forallb_string (fun d => negb (Ascii.eqb d c)) s = true ->
  remove_first c (s ++ String c EmptyString) = s.
Proof.
  induction s as [|d s IH]; simpl.
  - rewrite Ascii.eqb_refl. reflexivity.
  - intros H. apply andb_prop in H. destruct H as [Hd Hs].
    apply negb_true_iff in Hd. rewrite Hd, (IH Hs). reflexivity.
Qed.

Lemma uint_no_percent (d : Decimal.uint) :
  forallb_string (fun c => negb (Ascii.eqb c "%"%char)) (NilEmpty.string_of_uint d) = true.
Proof. induction d; simpl; assumption || reflexivity. Qed.

Lemma numeral_no_percent (z : Z) :
  forallb_string (fun c => negb (Ascii.eqb c "%"%char)) (string_of_Z z) = true.
Proof.
  unfold string_of_Z. destruct z as [|p|p]; simpl Z.to_int; [reflexivity| |];
    unfold NilZero.string_of_int, NilZero.string_of_uint;
    pose proof (uint_no_percent (Pos.to_uint p)) as H;
    destruct (Pos.to_uint p); simpl in *; assumption || reflexivity.
Qed.

End MoreDiskFacts.

(** X6: a df line that is kept gives a record of the listing; when its
    fifth field is the decimal numeral of an integer between -2^53 and
    2^53 followed by a per cent sign, [usePercent] is the number written,
    and when the line has no fifth field it is 0. *)
Theorem posix_disk_percent (output line : string) (z : Z) :
  In line (split output newline) ->
  GetDiskUsage.Posix.keep_line line = true ->
  In (GetDiskUsage.Posix.of_line line) (GetDiskUsage.Posix.parseFunction output) /\
  (StringSpec.safe_integer z ->
   nth_error (split_ws (trim line)) 4 = Some (string_of_Z z ++ "%")%string ->
   GetDiskUsage.Posix.usePercent (GetDiskUsage.Posix.of_line line) = of_Z z) /\
  (nth_error (split_ws (trim line)) 4 = None ->
   GetDiskUsage.Posix.usePercent (GetDiskUsage.Posix.of_line line) = zero).
Proof.
  intros Hin Hkeep. split; [|split].
  - unfold GetDiskUsage.Posix.parseFunction. apply in_map.
    apply filter_In. split; assumption.
  - intros Hz H4. unfold GetDiskUsage.Posix.of_line, GetDiskUsage.Posix.parts_of.
    cbn [GetDiskUsage.Posix.usePercent]. rewrite H4. cbn [option_map].
    rewrite remove_first_last by apply numeral_no_percent.
    rewrite parseInt_numeral_alone by exact Hz. apply or_of_Z.
  - intros H4. unfold GetDiskUsage.Posix.of_line, GetDiskUsage.Posix.parts_of.
    cbn [GetDiskUsage.Posix.usePercent]. rewrite H4. reflexivity.
Qed.

Lemma posix_disk_percent_witness :
  In (GetDiskUsage.Posix.of_line Samples2.df_line)
     (GetDiskUsage.Posix.parseFunction Samples2.df_output) /\
  GetDiskUsage.Posix.usePercent (GetDiskUsage.Posix.of_line Samples2.df_line) = of_Z 50.
Proof.
  destruct (posix_disk_percent Samples2.df_output Samples2.df_line 50) as (H1 & H2 & _).
  - vm_compute. right. left. reflexivity.
  - reflexivity.
  - split; [exact H1|]. apply H2; [unfold StringSpec.safe_integer; lia | reflexivity].
Defined.

(** X7: the integer fields read back the decimal numerals of the
    integers between -2^53 and 2^53: when the second field of a process
    line is the numeral of such a [z], the pid is [z] (on both rules), and
    when the second or the third field of a wmic line is the numeral of
    [z], so is the available space or the size. *)
Theorem integer_fields_read_back (line : string) (z : Z) :
  StringSpec.safe_integer z ->
  (nth_error (GetProcesses.Win32.parts_of line) 1 = Some (string_of_Z z) ->
   GetProcesses.Win32.pid (GetProcesses.Win32.of_line line) = of_Z z) /\
  (nth_error (GetProcesses.Posix.parts_of line) 1 = Some (string_of_Z z) ->
   GetProcesses.Posix.pid (GetProcesses.Posix.of_line line) = of_Z z) /\
  (nth_error (GetDiskUsage.Win32.parts_of line) 1 = Some (string_of_Z z) ->
   GetDiskUsage.Win32.available (GetDiskUsage.Win32.of_line line) = of_Z z) /\
  (nth_error (GetDiskUsage.Win32.parts_of line) 2 = Some (string_of_Z z) ->
   GetDiskUsage.Win32.size (GetDiskUsage.Win32.of_line line) = of_Z z).
Proof.
  intros Hz. split; [|split; [|split]]; intros H.
  - unfold GetProcesses.Win32.of_line. cbn [GetProcesses.Win32.pid].
    rewrite H, parseInt_numeral_alone by exact Hz. apply or_of_Z.
  - unfold GetProcesses.Posix.of_line. cbn [GetProcesses.Posix.pid].
    rewrite H, parseInt_numeral_alone by exact Hz. apply or_of_Z.
  - unfold GetDiskUsage.Win32.of_line. cbn [GetDiskUsage.Win32.available].
    rewrite H, parseInt_numeral_alone by exact Hz. apply or_of_Z.
  - unfold GetDiskUsage.Win32.of_line. cbn [GetDiskUsage.Win32.size].
    rewrite H, parseInt_numeral_alone by exact Hz. apply or_of_Z.
Qed.

Lemma integer_fields_read_back_witness :
  GetProcesses.Win32.pid (GetProcesses.Win32.of_line Samples.chrome_line) = of_Z 1234 /\
  GetProcesses.Posix.pid (GetProcesses.Posix.of_line Samples2.ps_line) = of_Z 22 /\
  GetDiskUsage.Win32.available (GetDiskUsage.Win32.of_line Samples.wmic_line) = of_Z 100 /\
  GetDiskUsage.Win32.size (GetDiskUsage.Win32.of_line Samples.wmic_line) = of_Z 400.
Proof.
  assert (S1 : StringSpec.safe_integer 1234) by (unfold StringSpec.safe_integer; lia).
  assert (S2 : StringSpec.safe_integer 22) by (unfold StringSpec.safe_integer; lia).
  assert (S3 : StringSpec.safe_integer 100) by (unfold StringSpec.safe_integer; lia).
  assert (S4 : StringSpec.safe_integer 400) by (unfold StringSpec.safe_integer; lia).
  split; [|split; [|split]].
  - apply (proj1 (@integer_fields_read_back Samples.chrome_line 1234 S1)).
    reflexivity.
  - apply (proj1 (proj2 (@integer_fields_read_back Samples2.ps_line 22 S2))).
    reflexivity.
  - apply (proj1 (proj2 (proj2 (@integer_fields_read_back Samples.wmic_line 100 S3)))).
    reflexivity.
  - apply (proj2 (proj2 (proj2 (@integer_fields_read_back Samples.wmic_line 400 S4)))).
    reflexivity.
Defined.



(* ===================================================================== *)
(** ** Memory usage and the combined statistics *)
(* ===================================================================== *)



(** X10: the combined handler reports for the cpu and for the memory what
    the two separate handlers report on the same readings of the host. *)
Theorem system_stats_agrees (os : GetSystemStats.Host) :
  GetSystemStats.cpu (GetSystemStats.handler os)
  = GetCpuUsage.handler (GetSystemStats.os_cpus os) (GetSystemStats.os_loadavg os) /\
  GetSystemStats.memory (GetSystemStats.handler os)
  = GetMemoryUsage.handler (GetSystemStats.os_totalmem os) (GetSystemStats.os_freemem os) /\
  GetSystemStats.uptime (GetSystemStats.system (GetSystemStats.handler os))
  = GetSystemStats.os_uptime os.
Proof. repeat split. Qed.

(* ===================================================================== *)
(** ** The detailed system information *)
(* ===================================================================== *)

Section DetailedFacts.

Import GetDetailedSystemInfo.

Lemma mapi_from_length {A B} (f : A -> nat -> B) (l : list A) (i : nat) :
  List.length (mapi_from i f l) = List.length l.
Proof.
  revert i. induction l as [|x l IH]; intros i; simpl; [|rewrite IH]; reflexivity.
Qed.

Lemma mapi_from_nth {A B} (f : A -> nat -> B) (l : list A) (i k : nat) (x : A) :
  nth_error l k = Some x -> nth_error (mapi_from i f l) k = Some (f x (k + i)%nat).
Proof.
  revert i k. induction l as [|y l IH]; intros i [|k]; simpl; try discriminate.
  - intros H. injection H as ->. reflexivity.
  - intros H. rewrite (IH (S i) k H). f_equal. f_equal. lia.
Qed.

Lemma mapi_from_ids (cpus : list GetCpuUsage.CpuInfo) (i : nat) :
  map id
      (mapi_from i
         (fun cpu index =>
            {| id := index;
               d_model := GetCpuUsage.model cpu;
               d_speed := GetCpuUsage.speed cpu;
               d_times :=
                 {| GetCpuUsage.user := GetCpuUsage.user (GetCpuUsage.times cpu);
                    GetCpuUsage.nice := GetCpuUsage.nice (GetCpuUsage.times cpu);
                    GetCpuUsage.sys := GetCpuUsage.sys (GetCpuUsage.times cpu);
                    GetCpuUsage.idle := GetCpuUsage.idle (GetCpuUsage.times cpu);
                    GetCpuUsage.irq := GetCpuUsage.irq (GetCpuUsage.times cpu) |} |})
         cpus)
  = seq i (List.length cpus).
Proof.
  revert i. induction cpus as [|cpu cpus IH]; intros i; simpl; [|rewrite IH];
    reflexivity.
Qed.

Lemma handler_resolved (os : Host) (u : UserInfo) (c : console) :
  os_userInfo os = Resolved u ->
  exists info,
    handler os c = (Resolved info, c) /\
    details (p_cpu info) = cpuDetails (os_cpus os) /\
    cores (p_cpu info) = List.length (os_cpus os) /\
    model (p_cpu info)
    = or_str (option_map GetCpuUsage.model (nth_error (os_cpus os) 0)) "Unknown" /\
    speed (p_cpu info)
    = or_number (option_map GetCpuUsage.speed (nth_error (os_cpus os) 0)) zero /\
    p_network info = networkDetails (os_networkInterfaces os) /\
    p_memory info
    = {| total := os_totalmem os 0; free := os_freemem os 0;
         used := sub (os_totalmem os 1) (os_freemem os 1) |} /\
    userInfo (p_system info) = u.
Proof.
  intros Hu. unfold handler, bind, await, ret. rewrite Hu.
  eexists. split; [reflexivity|]. repeat split.
Qed.

End DetailedFacts.

(** X11: when the user lookup succeeds the detailed information resolves
    and leaves the console alone; it has one detail per core, numbered from
    0 in the order of the cores, each with the model, speed and times of its
    core; with no core at all the model is [Unknown] and the speed 0. *)
Theorem detailed_info_cpu (os : GetDetailedSystemInfo.Host)
    (u : GetDetailedSystemInfo.UserInfo) (c : console) :
  GetDetailedSystemInfo.os_userInfo os = Resolved u ->
  exists info,
    GetDetailedSystemInfo.handler os c = (Resolved info, c) /\
    GetDetailedSystemInfo.cores (GetDetailedSystemInfo.p_cpu info)
    = List.length (GetDetailedSystemInfo.os_cpus os) /\
    map GetDetailedSystemInfo.id
        (GetDetailedSystemInfo.details (GetDetailedSystemInfo.p_cpu info))
    = seq 0 (List.length (GetDetailedSystemInfo.os_cpus os)) /\
    (forall i cpu,
        nth_error (GetDetailedSystemInfo.os_cpus os) i = Some cpu ->
        exists d,
          nth_error (GetDetailedSystemInfo.details (GetDetailedSystemInfo.p_cpu info)) i
          = Some d /\
          GetDetailedSystemInfo.id d = i /\
          GetDetailedSystemInfo.d_model d = GetCpuUsage.model cpu /\
          GetDetailedSystemInfo.d_speed d = GetCpuUsage.speed cpu /\
          GetDetailedSystemInfo.d_times d = GetCpuUsage.times cpu) /\
    (GetDetailedSystemInfo.os_cpus os = [] ->
     GetDetailedSystemInfo.model (GetDetailedSystemInfo.p_cpu info) = "Unknown"%string /\
     GetDetailedSystemInfo.speed (GetDetailedSystemInfo.p_cpu info) = zero).
Proof.
  intros Hu.
  destruct (handler_resolved os c Hu)
    as (info & Hh & Hd & Hc & Hm & Hs & _).
  exists info. split; [exact Hh|]. split; [exact Hc|].
  rewrite Hd, Hm, Hs. unfold GetDetailedSystemInfo.cpuDetails, mapi.
  split; [apply mapi_from_ids|]. split.
  - intros i cpu Hi. eexists. split; [apply mapi_from_nth; exact Hi|].
    cbn. rewrite Nat.add_0_r. repeat split.
    destruct (GetCpuUsage.times cpu); reflexivity.
  - intros ->. split; reflexivity.
Qed.

Lemma detailed_info_cpu_witness :
  exists info,
    GetDetailedSystemInfo.handler (Samples2.host (Resolved Samples2.alice)) []
    = (Resolved info, []) /\
    GetDetailedSystemInfo.cores (GetDetailedSystemInfo.p_cpu info) = 2%nat.
Proof.
  destruct (detailed_info_cpu (Samples2.host (Resolved Samples2.alice)) [] eq_refl)
    as (info & H1 & H2 & _).
  exists info. split; [exact H1 | exact H2].
Defined.

(** X12: when the user lookup succeeds the detailed information lists the
    network interfaces under their names, in the order of the host, an
    interface name without an array giving an empty list; its memory part
    reports used space from a second reading of the host, so that
    used + free is the total when the two readings agree. *)
Theorem detailed_info_network_memory (os : GetDetailedSystemInfo.Host)
    (u : GetDetailedSystemInfo.UserInfo) (c : console) :
  GetDetailedSystemInfo.os_userInfo os = Resolved u ->
  exists info,
    GetDetailedSystemInfo.handler os c = (Resolved info, c) /\
    map GetDetailedSystemInfo.name (GetDetailedSystemInfo.p_network info)
    = map fst (or_array (GetDetailedSystemInfo.os_networkInterfaces os) []) /\
    map (fun n => List.length (GetDetailedSystemInfo.interfaces n))
        (GetDetailedSystemInfo.p_network info)
    = map (fun e => List.length (or_array (snd e) []))
          (or_array (GetDetailedSystemInfo.os_networkInterfaces os) []) /\
    (forall t f : Q,
        GetDetailedSystemInfo.os_totalmem os 0 = Fin t ->
        GetDetailedSystemInfo.os_totalmem os 1 = Fin t ->
        GetDetailedSystemInfo.os_freemem os 0 = Fin f ->
        GetDetailedSystemInfo.os_freemem os 1 = Fin f ->
        is_fin (add (GetDetailedSystemInfo.used (GetDetailedSystemInfo.p_memory info))
                    (GetDetailedSystemInfo.free (GetDetailedSystemInfo.p_memory info)))
               t).
Proof.
  intros Hu.
  destruct (handler_resolved os c Hu)
    as (info & Hh & _ & _ & _ & _ & Hn & Hm & _).
  exists info. split; [exact Hh|]. rewrite Hn, Hm.
  unfold GetDetailedSystemInfo.networkDetails.
  split; [|split].
  - rewrite map_map. apply map_ext. intros [n ifs]. reflexivity.
  - rewrite map_map. apply map_ext. intros [n [ifs|]]; simpl; [|reflexivity].
    apply length_map.
  - intros t f -> Ht -> Hf.
    cbn [GetDetailedSystemInfo.used GetDetailedSystemInfo.free].
    rewrite Ht, Hf. simpl. ring.
Qed.

Lemma detailed_info_network_memory_witness :
  exists info,
    GetDetailedSystemInfo.handler (Samples2.host (Resolved Samples2.alice)) []
    = (Resolved info, []) /\
    map GetDetailedSystemInfo.name (GetDetailedSystemInfo.p_network info)
    = ["lo"; "eth0"]%string.
Proof.
  destruct (detailed_info_network_memory
              (Samples2.host (Resolved Samples2.alice)) [] eq_refl)
    as (info & H1 & H2 & _).
  exists info. split; [exact H1 | exact H2].
Defined.

(** X13: the detailed information has no catch: when the user lookup
    throws, the handler rejects with that error and writes nothing to the
    console. *)
Theorem detailed_info_rejects (os : GetDetailedSystemInfo.Host)
    (e : error) (c : console) :
  GetDetailedSystemInfo.os_userInfo os = Rejected e ->
  GetDetailedSystemInfo.handler os c = (Rejected e, c).
Proof.
  intros He. unfold GetDetailedSystemInfo.handler, bind, await. rewrite He.
  reflexivity.
Qed.

Lemma detailed_info_rejects_witness :
  GetDetailedSystemInfo.handler
    (Samples2.host (Rejected "SystemError: uv_os_get_passwd"%string)) []
  = (Rejected "SystemError: uv_os_get_passwd"%string, []).
Proof.
  apply (@detailed_info_rejects
           (Samples2.host (Rejected "SystemError: uv_os_get_passwd"%string))
           "SystemError: uv_os_get_passwd"%string []).
  reflexivity.
Defined.

(* ===================================================================== *)
(** ** The uptime handler *)
(* ===================================================================== *)




(* ===================================================================== *)
(** ** The renderer's status helpers *)
(* ===================================================================== *)

(** X17: in the monitor, whatever the number (NaN included), the cpu and
    the memory status is [Good], [Moderate] or [High]; the badge shows that
    very word and the icon is never the fallback [Info]: the default
    branches of [getStatusBadge] and [getStatusIcon] are never taken for
    these callers.  A NaN usage is reported as [High]. *)
Theorem monitor_status_badge (usage : number) :
  children (Monitor.getStatusBadge (status (Monitor.getCpuStatus usage)))
  = Some (status (Monitor.getCpuStatus usage)) /\
  children (Monitor.getStatusBadge (status (Monitor.getMemoryStatus usage)))
  = Some (status (Monitor.getMemoryStatus usage)) /\
  status (Monitor.getCpuStatus usage) <> "Unknown"%string /\
  status (Monitor.getMemoryStatus usage) <> "Unknown"%string /\
  component (Monitor.getStatusIcon (status (Monitor.getCpuStatus usage))) <> "Info"%string /\
  component (Monitor.getStatusIcon (status (Monitor.getMemoryStatus usage))) <> "Info"%string /\
  status (Monitor.getCpuStatus NaN) = "High"%string /\
  status (Monitor.getMemoryStatus NaN) = "High"%string.
Proof.
  unfold Monitor.getCpuStatus, Monitor.getMemoryStatus.
  repeat split;
    repeat match goal with
    | |- context [lt usage ?x] => destruct (lt usage x)
    end; try reflexivity; discriminate.
Qed.

(** X18: in the dashboard, whatever the number, the disk status is [Good],
    [Warning] or [Critical] and the badge shows that very word, never
    [Unknown]; the status never improves when the usage grows. *)
Theorem dashboard_disk_status (usage usage' : number) :
  children (Dashboard.getStatusBadge (status (Dashboard.getDiskStatus usage)))
  = Some (status (Dashboard.getDiskStatus usage)) /\
  status (Dashboard.getDiskStatus usage) <> "Unknown"%string /\
  (ge usage' usage = true ->
   (status (Dashboard.getDiskStatus usage') = "Good"%string ->
    status (Dashboard.getDiskStatus usage) = "Good"%string) /\
   (status (Dashboard.getDiskStatus usage) = "Critical"%string ->
    status (Dashboard.getDiskStatus usage') = "Critical"%string)).
Proof.
  split; [|split].
  - unfold Dashboard.getDiskStatus.
    destruct (lt usage (of_Z 70)); [reflexivity|].
    destruct (lt usage (of_Z 90)); reflexivity.
  - unfold Dashboard.getDiskStatus.
    destruct (lt usage (of_Z 70)); [discriminate|].
    destruct (lt usage (of_Z 90)); discriminate.
  - intros Hge. unfold Dashboard.getDiskStatus.
    assert (Hmono : forall k : Z, lt usage' (of_Z k) = true -> lt usage (of_Z k) = true).
    { intros k. unfold lt, of_Z. destruct usage, usage'; simpl in *;
        try discriminate; try reflexivity.
      qcases; try discriminate; try reflexivity; lra. }
    split.
    + destruct (lt usage' (of_Z 70)) eqn:E70'.
      * rewrite (Hmono 70%Z E70'). reflexivity.
      * destruct (lt usage' (of_Z 90)); discriminate.
    + destruct (lt usage (of_Z 70)) eqn:E70; [discriminate|].
      destruct (lt usage (of_Z 90)) eqn:E90; [discriminate|]. intros _.
      destruct (lt usage' (of_Z 70)) eqn:E70'; [rewrite (Hmono 70%Z E70') in E70; discriminate|].
      destruct (lt usage' (of_Z 90)) eqn:E90'; [rewrite (Hmono 90%Z E90') in E90; discriminate|].
      reflexivity.
Qed.

Lemma dashboard_disk_status_witness :
  status (Dashboard.getDiskStatus (of_Z 95)) = "Critical"%string.
Proof.
  apply (proj2 (proj2 (proj2 (dashboard_disk_status (of_Z 91) (of_Z 95))) eq_refl)).
  reflexivity.
Defined.

(** X19: when every counter of the snapshot is zero (or there is no core),
    the combined statistics carry a NaN cpu usage and the monitor shows the
    cpu status [High]. *)
Theorem zero_ticks_shown_as_high (os : GetSystemStats.Host) :
  forallb CpuSpec.all_zero (GetSystemStats.os_cpus os) = true ->
  GetCpuUsage.usage (GetSystemStats.cpu (GetSystemStats.handler os)) = NaN /\
  status (Monitor.getCpuStatus
            (GetCpuUsage.usage (GetSystemStats.cpu (GetSystemStats.handler os))))
  = "High"%string.
Proof.
  intros H. apply all_zero_counters in H. destruct H as [H1 H2].
  assert (E : GetCpuUsage.usage (GetSystemStats.cpu (GetSystemStats.handler os)) = NaN)
    by (apply (usage_nan_of_zero_ticks _ (GetSystemStats.os_loadavg os) H1 H2)).
  rewrite E. split; reflexivity.
Qed.

Lemma zero_ticks_shown_as_high_witness :
  status (Monitor.getCpuStatus
            (GetCpuUsage.usage
               (GetSystemStats.cpu (GetSystemStats.handler (Samples2.stats_host [])))))
  = "High"%string.
Proof.
  apply (proj2 (zero_ticks_shown_as_high (Samples2.stats_host []) eq_refl)).
Defined.

(* ===================================================================== *)
(** ** The parts of the uptime text *)
(* ===================================================================== *)

Section UptimeParts.

Lemma Qfloor_bounds (q : Q) :
  inject_Z (Qfloor q) <= q /\ q < inject_Z (Qfloor q) + 1.
Proof.
  split; [apply Qfloor_le|].
  pose proof (Qlt_floor q) as H. rewrite inject_Z_plus in H. exact H.
Qed.

Lemma Qceiling_bounds (q : Q) :
  inject_Z (Qceiling q) - 1 < q /\ q <= inject_Z (Qceiling q).
Proof.
  split; [|apply Qle_ceiling].
  pose proof (Qceiling_lt q) as H.
  unfold Z.sub in H. rewrite inject_Z_plus in H. exact H.
Qed.

Lemma Qfloor_unique (q : Q) (n : Z) :
  inject_Z n <= q -> q < inject_Z n + 1 -> Qfloor q = n.
Proof.
  intros H1 H2. destruct (Qfloor_bounds q) as [F1 F2].
  assert (A : (n < Qfloor q + 1)%Z).
  { rewrite Zlt_Qlt, inject_Z_plus. change (inject_Z 1) with 1. lra. }
  assert (B : (Qfloor q < n + 1)%Z).
  { rewrite Zlt_Qlt, inject_Z_plus. change (inject_Z 1) with 1. lra. }
  lia.
Qed.

Lemma Qfloor_range (q : Q) (a b : Z) :
  inject_Z a <= q -> q < inject_Z b -> (a <= Qfloor q < b)%Z.
Proof.
  intros H1 H2. destruct (Qfloor_bounds q) as [F1 F2]. split.
  - assert (A : (a < Qfloor q + 1)%Z)
      by (rewrite Zlt_Qlt, inject_Z_plus; change (inject_Z 1) with 1; lra).
    lia.
  - rewrite Zlt_Qlt. lra.
Qed.

Lemma div_mul (x d : Q) : ~ d == 0 -> x == d * (x / d).
Proof. intros Hd. field. exact Hd. Qed.

Lemma rem_of_negative (x d : Q) :
  x < 0 -> 0 < d ->
  rem (Fin x) (Fin d) = Fin (x - d * inject_Z (Qceiling (x / d))).
Proof.
  intros Hx Hd. unfold rem, sgn. destruct (Qcompare_spec d 0); try lra.
  unfold Qtrunc, sgn.
  assert (Hq : x / d < 0).
  { apply Qlt_shift_div_r; lra. }
  destruct (Qcompare_spec (x / d) 0); try lra. reflexivity.
Qed.

End UptimeParts.

(** X15: for a non-negative number of seconds the three numbers that
    [formatUptime] writes are a proper breakdown: days are not negative,
    hours lie in 0..23, minutes in 0..59, and
    days * 86400 + hours * 3600 + minutes * 60 is the number of seconds
    rounded down to a whole minute. *)
Theorem formatUptime_breakdown (seconds : Q) :
  0 <= seconds ->
  Uptime.formatUptime (Fin seconds) = UptimeSpec.text seconds /\
  (0 <= UptimeSpec.days seconds)%Z /\
  (0 <= UptimeSpec.hours seconds < 24)%Z /\
  (0 <= UptimeSpec.minutes seconds < 60)%Z /\
  inject_Z (UptimeSpec.days seconds * 86400 + UptimeSpec.hours seconds * 3600
            + UptimeSpec.minutes seconds * 60) <= seconds /\
  seconds < inject_Z (UptimeSpec.days seconds * 86400 + UptimeSpec.hours seconds * 3600
                      + UptimeSpec.minutes seconds * 60) + 60.
Proof.
  intros Hs. split.
  { unfold Uptime.formatUptime, UptimeSpec.text, of_Z.
    rewrite !rem_by_positive by (assumption || reflexivity).
    rewrite !div_by_positive by reflexivity.
    rewrite !gt_floor_zero, !toString_floor. reflexivity. }
  unfold UptimeSpec.days, UptimeSpec.hours, UptimeSpec.minutes, UptimeSpec.Qmod.
  set (d := Qfloor (seconds / 86400)).
  destruct (Qfloor_bounds (seconds / 86400)) as [D1 D2]. fold d in D1, D2.
  assert (E1 : seconds == 86400 * (seconds / 86400)) by (apply div_mul; discriminate).
  set (r1 := seconds - 86400 * inject_Z d).
  assert (R1 : 0 <= r1 /\ r1 < 86400) by (unfold r1; split; lra).
  set (h := Qfloor (r1 / 3600)).
  destruct (Qfloor_bounds (r1 / 3600)) as [H1 H2]. fold h in H1, H2.
  assert (E2 : r1 == 3600 * (r1 / 3600)) by (apply div_mul; discriminate).
  assert (E3 : seconds == 3600 * (seconds / 3600)) by (apply div_mul; discriminate).
  assert (F : Qfloor (seconds / 3600) = (24 * d + h)%Z).
  { apply Qfloor_unique; rewrite inject_Z_plus, inject_Z_mult;
      change (inject_Z 24) with 24; unfold r1 in *; lra. }
  rewrite F.
  set (r2 := seconds - 3600 * inject_Z (24 * d + h)).
  assert (R2 : 0 <= r2 /\ r2 < 3600).
  { unfold r2. rewrite inject_Z_plus, inject_Z_mult.
    change (inject_Z 24) with 24. unfold r1 in *. split; lra. }
  set (m := Qfloor (r2 / 60)).
  destruct (Qfloor_bounds (r2 / 60)) as [M1 M2]. fold m in M1, M2.
  assert (E4 : r2 == 60 * (r2 / 60)) by (apply div_mul; discriminate).
  assert (Hd : (0 <= d)%Z).
  { assert (A : (-1 < d)%Z) by (rewrite Zlt_Qlt; change (inject_Z (-1)) with (-1); lra).
    lia. }
  assert (Hh : (0 <= h < 24)%Z).
  { apply Qfloor_range; [change (inject_Z 0) with 0 | change (inject_Z 24) with 24]; lra. }
  assert (Hm : (0 <= m < 60)%Z).
  { apply Qfloor_range; [change (inject_Z 0) with 0 | change (inject_Z 60) with 60]; lra. }
  split; [exact Hd|]. split; [exact Hh|]. split; [exact Hm|].
  rewrite !inject_Z_plus, !inject_Z_mult.
  change (inject_Z 86400) with 86400. change (inject_Z 3600) with 3600.
  change (inject_Z 60) with 60.
  unfold r2 in *. rewrite inject_Z_plus, inject_Z_mult in *.
  change (inject_Z 24) with 24 in *. split; lra.
Qed.

Lemma formatUptime_breakdown_witness :
  (0 <= UptimeSpec.hours (90061 # 1) < 24)%Z /\
  (0 <= UptimeSpec.minutes (90061 # 1) < 60)%Z.
Proof.
  destruct (@formatUptime_breakdown (90061 # 1)) as (_ & _ & H & M & _).
  - discriminate.
  - split; [exact H | exact M].
Defined.

(** X16: for a negative number of seconds [formatUptime] never shows days
    or hours: the text is just a number of minutes, between -60 and 0,
    followed by [m]. *)
Theorem formatUptime_negative (seconds : Q) :
  seconds < 0 ->
  exists m : Z,
    Uptime.formatUptime (Fin seconds) = (string_of_Z m ++ "m")%string /\
    (-60 <= m <= 0)%Z.
Proof.
  intros Hs. unfold Uptime.formatUptime, of_Z.
  rewrite !rem_of_negative by (assumption || reflexivity).
  rewrite !div_by_positive by reflexivity.
  rewrite !gt_floor_zero, !toString_floor.
  assert (E1 : seconds == 86400 * (seconds / 86400)) by (apply div_mul; discriminate).
  destruct (Qfloor_bounds (seconds / inject_Z 86400)) as [D1 _].
  change (inject_Z 86400) with 86400 in *.
  assert (Hd : (Qfloor (seconds / 86400) >? 0)%Z = false).
  { rewrite Z.gtb_ltb. apply Z.ltb_ge.
    assert (A : (Qfloor (seconds / 86400) < 0)%Z)
      by (rewrite Zlt_Qlt; change (inject_Z 0) with 0; lra).
    lia. }
  rewrite Hd.
  destruct (Qceiling_bounds (seconds / 86400)) as [C1 C2].
  set (r1 := seconds - 86400 * inject_Z (Qceiling (seconds / 86400))).
  assert (R1 : r1 <= 0) by (unfold r1; lra).
  assert (E2 : r1 == 3600 * (r1 / 3600)) by (apply div_mul; discriminate).
  destruct (Qfloor_bounds (r1 / inject_Z 3600)) as [H1 _].
  change (inject_Z 3600) with 3600 in *.
  assert (Hh : (Qfloor (r1 / 3600) >? 0)%Z = false).
  { rewrite Z.gtb_ltb. apply Z.ltb_ge.
    assert (A : (Qfloor (r1 / 3600) < 1)%Z)
      by (rewrite Zlt_Qlt; change (inject_Z 1) with 1; lra).
    lia. }
  rewrite Hh.
  assert (E3 : seconds == 3600 * (seconds / 3600)) by (apply div_mul; discriminate).
  destruct (Qceiling_bounds (seconds / 3600)) as [K1 K2].
  set (r2 := seconds - 3600 * inject_Z (Qceiling (seconds / 3600))).
  assert (R2 : -3600 < r2 /\ r2 <= 0) by (unfold r2; split; lra).
  assert (E4 : r2 == 60 * (r2 / 60)) by (apply div_mul; discriminate).
  change (inject_Z 60) with 60.
  exists (Qfloor (r2 / 60)). split; [reflexivity|].
  assert (A : (-61 < Qfloor (r2 / 60) + 1 - 1 < 1)%Z).
  { destruct (Qfloor_bounds (r2 / 60)) as [M1 M2].
    replace (Qfloor (r2 / 60) + 1 - 1)%Z with (Qfloor (r2 / 60)) by lia.
    split; rewrite Zlt_Qlt.
    - change (inject_Z (-61)) with (-61). lra.
    - change (inject_Z 1) with 1. lra. }
  lia.
Qed.

Lemma formatUptime_negative_witness :
  exists m : Z,
    Uptime.formatUptime (Fin (- (90000 # 1))) = (string_of_Z m ++ "m")%string /\
    (-60 <= m <= 0)%Z.
Proof.
  apply (@formatUptime_negative (- (90000 # 1))). reflexivity.
Defined.

(* ===================================================================== *)
(** ** The fields of a line of text *)
(* ===================================================================== *)

Section TextFacts.

Import StringSpec.

















End TextFacts.


